(** * nexjobjs: the job-search page as a state machine

    A shallow embedding of [src/components/pages/JobSearchPage.tsx]: the
    React state of the component is a record, every handler is a function
    on that record, and the two asynchronous handlers ([loadMoreJobs] and
    [handleFilterSearch]) are split at their [await] into the part that
    runs when the handler is invoked and the continuation that runs when
    [wpService.getJobs] settles.  Requests that were issued and have not
    settled yet are kept in an explicit list.

    Conventions of the embedding:
    - a JavaScript string is a [string] whose characters are the UTF-16
      code units of the Latin-1 range (0..255);
    - a JavaScript number that holds a page number or a count is a [Z];
    - a handler reads the state of the latest committed render, i.e. React
      re-renders between two events;
    - the state hooks [loading] and [showMobileFilters] and the [settings]
      prop are not read by any handler and are left out. *)

From Stdlib Require Import Bool List ZArith NArith Lia Permutation.
From Stdlib Require Import Ascii String.
Import ListNotations.

Local Open Scope list_scope.
Local Open Scope string_scope.

(** ** Strings *)

Module Str.

Definition dquote : ascii := "034"%char.
Definition backslash : ascii := "092"%char.

Definition single (c : ascii) : string := String c EmptyString.

(** JavaScript truthiness of a string: [''] is falsy, all others truthy. *)
Definition truthy (s : string) : bool :=
  match s with
  | EmptyString => false
  | String _ _ => true
  end.

End Str.

(** ** [JSON.stringify] on the sidebar filters

    ECMA-262 [QuoteJSONString]: the seven characters with a short escape,
    the other control characters as a lower-case [\u00xx], every other
    code unit as itself. *)

Module JSON.

Definition hexLower (n : N) : ascii :=
  if (n <? 10)%N then ascii_of_N (48 + n) else ascii_of_N (87 + n).

Definition unicodeEscape (c : ascii) : string :=
  let n := N_of_ascii c in
  "\u00" ++ String (hexLower (n / 16)) (String (hexLower (n mod 16)) "").

Definition quoteChar (c : ascii) : string :=
  match c with
  | "008"%char => "\b"
  | "009"%char => "\t"
  | "010"%char => "\n"
  | "012"%char => "\f"
  | "013"%char => "\r"
  | "034"%char => String Str.backslash (Str.single Str.dquote)
  | "092"%char => "\\"
  | _ => if (N_of_ascii c <? 32)%N then unicodeEscape c else Str.single c
  end.

Fixpoint quoteBody (s : string) : string :=
  match s with
  | EmptyString => ""
  | String c s' => quoteChar c ++ quoteBody s'
  end.

Definition quoteString (s : string) : string :=
  String Str.dquote (quoteBody s ++ Str.single Str.dquote).

(** [SerializeJSONArray] on an array of strings, no indentation. *)
Fixpoint joinElements (xs : list string) : string :=
  match xs with
  | [] => ""
  | [x] => quoteString x
  | x :: rest => quoteString x ++ "," ++ joinElements rest
  end.

Definition stringifyArray (xs : list string) : string :=
  "[" ++ joinElements xs ++ "]".

(** One [key:value] member of an object, followed by [rest]. *)
Definition member (key : string) (xs : list string) (rest : string) : string :=
  quoteString key ++ ":" ++ stringifyArray xs ++ rest.

(** Reading one quoted character back; used to show that the encoding
    loses nothing. *)
Definition hexValue (c : ascii) : option N :=
  let n := N_of_ascii c in
  if ((48 <=? n) && (n <=? 57))%N then Some (n - 48)%N
  else if ((97 <=? n) && (n <=? 102))%N then Some (n - 87)%N
  else None.

Definition unquoteChar (s : string) : option (ascii * string) :=
  match s with
  | EmptyString => None
  | String "092"%char (String x r) =>
      match x with
      | "b"%char => Some ("008"%char, r)
      | "t"%char => Some ("009"%char, r)
      | "n"%char => Some ("010"%char, r)
      | "f"%char => Some ("012"%char, r)
      | "r"%char => Some ("013"%char, r)
      | "034"%char => Some ("034"%char, r)
      | "092"%char => Some ("092"%char, r)
      | "u"%char =>
          match r with
          | String "0"%char (String "0"%char (String h (String l r'))) =>
              match hexValue h, hexValue l with
              | Some a, Some b => Some (ascii_of_N (16 * a + b), r')
              | _, _ => None
              end
          | _ => None
          end
      | _ => None
      end
  | String c r =>
      if (c =? Str.dquote)%char then None
      else if (c =? Str.backslash)%char then None
      else Some (c, r)
  end.

End JSON.

(** ** [URLSearchParams] and its [toString]

    The WHATWG application/x-www-form-urlencoded serializer: a string is
    UTF-8 encoded, a space becomes [+], the ASCII alphanumerics and
    [* - . _] stay, every other byte becomes [%XX] with upper-case hex
    digits; pairs are written [name=value] and joined by [&]. *)

Module URLSearchParams.

Definition t : Type := list (string * string).

Definition empty : t := [].

Fixpoint delete (name : string) (l : t) : t :=
  match l with
  | [] => []
  | (k, v) :: rest =>
      if (k =? name)%string then delete name rest else (k, v) :: delete name rest
  end.

(** [set]: the first pair of that name takes the value and the other
    pairs of that name go; without such a pair, one is appended. *)
Fixpoint set (name value : string) (l : t) : t :=
  match l with
  | [] => [(name, value)]
  | (k, v) :: rest =>
      if (k =? name)%string then (name, value) :: delete name rest
      else (k, v) :: set name value rest
  end.

Definition hexUpper (n : N) : ascii :=
  if (n <? 10)%N then ascii_of_N (48 + n) else ascii_of_N (55 + n).

Definition percentEncode (b : N) : string :=
  String "%"%char (String (hexUpper (b / 16)) (String (hexUpper (b mod 16)) "")).

Definition utf8 (c : ascii) : list N :=
  let n := N_of_ascii c in
  if (n <? 128)%N then [n] else [(192 + n / 64)%N; (128 + n mod 64)%N].

Definition unreserved (b : N) : bool :=
  ((48 <=? b) && (b <=? 57) || (65 <=? b) && (b <=? 90) ||
   (97 <=? b) && (b <=? 122) ||
   (b =? 42) || (b =? 45) || (b =? 46) || (b =? 95))%N.

Definition encodeByte (b : N) : string :=
  if (b =? 32)%N then "+"
  else if unreserved b then Str.single (ascii_of_N b)
  else percentEncode b.

Fixpoint encodeBytes (bs : list N) : string :=
  match bs with
  | [] => ""
  | b :: rest => encodeByte b ++ encodeBytes rest
  end.

Fixpoint encode (s : string) : string :=
  match s with
  | EmptyString => ""
  | String c s' => encodeBytes (utf8 c) ++ encode s'
  end.

Fixpoint toString (l : t) : string :=
  match l with
  | [] => ""
  | [(k, v)] => encode k ++ "=" ++ encode v
  | (k, v) :: rest => encode k ++ "=" ++ encode v ++ "&" ++ toString rest
  end.

End URLSearchParams.

(** ** The router of next/router, as far as the page drives it

    [replace] overwrites the current history entry, [push] (used by the
    other pages of the site) adds one.  [shallow] records whether the last
    transition was a shallow one, i.e. ran without reloading the page
    data. *)

Module Router.

Record t : Type := mk {
  location : string;
  earlier : list string;
  shallow : bool
}.

Definition replace (url : string) (isShallow : bool) (r : t) : t :=
  {| location := url; earlier := earlier r; shallow := isShallow |}.

Definition push (url : string) (isShallow : bool) (r : t) : t :=
  {| location := url; earlier := location r :: earlier r; shallow := isShallow |}.

End Router.

(** ** Data model *)

(** Modelled from the spec: the [Job] type of [@/types/job] is not among
    the sources.  The page treats a job as opaque and reads [id] (list
    key) and [slug] (detail link) only. *)
Record Job : Type := mkJob {
  id : Z;
  slug : string
}.

(** The multi-select facets of the sidebar, in the key order of the object
    literal of the [useState] call; the spread [{...prev, k: v}] and the
    literal of [clearAllFilters] keep that order. *)
Record SidebarFilters : Type := mkSidebarFilters {
  cities : list string;
  jobTypes : list string;
  experiences : list string;
  educations : list string;
  industries : list string;
  workPolicies : list string;
  categories : list string
}.

Definition noSidebarFilters : SidebarFilters :=
  mkSidebarFilters [] [] [] [] [] [] [].

Inductive FacetName : Type :=
  | Cities | JobTypes | Experiences | Educations | Industries
  | WorkPolicies | Categories.

Definition getFacet (k : FacetName) (f : SidebarFilters) : list string :=
  match k with
  | Cities => cities f
  | JobTypes => jobTypes f
  | Experiences => experiences f
  | Educations => educations f
  | Industries => industries f
  | WorkPolicies => workPolicies f
  | Categories => categories f
  end.

(** [{ ...prev, [k]: v }] *)
Definition setFacet (k : FacetName) (v : list string) (f : SidebarFilters)
  : SidebarFilters :=
  match k with
  | Cities => mkSidebarFilters v (jobTypes f) (experiences f) (educations f) (industries f) (workPolicies f) (categories f)
  | JobTypes => mkSidebarFilters (cities f) v (experiences f) (educations f) (industries f) (workPolicies f) (categories f)
  | Experiences => mkSidebarFilters (cities f) (jobTypes f) v (educations f) (industries f) (workPolicies f) (categories f)
  | Educations => mkSidebarFilters (cities f) (jobTypes f) (experiences f) v (industries f) (workPolicies f) (categories f)
  | Industries => mkSidebarFilters (cities f) (jobTypes f) (experiences f) (educations f) v (workPolicies f) (categories f)
  | WorkPolicies => mkSidebarFilters (cities f) (jobTypes f) (experiences f) (educations f) (industries f) v (categories f)
  | Categories => mkSidebarFilters (cities f) (jobTypes f) (experiences f) (educations f) (industries f) (workPolicies f) v
  end.

(** [JSON.stringify(sidebarFilters)] *)
Definition stringifySidebarFilters (f : SidebarFilters) : string :=
  "{" ++ JSON.member "cities" (cities f)
  ("," ++ JSON.member "jobTypes" (jobTypes f)
  ("," ++ JSON.member "experiences" (experiences f)
  ("," ++ JSON.member "educations" (educations f)
  ("," ++ JSON.member "industries" (industries f)
  ("," ++ JSON.member "workPolicies" (workPolicies f)
  ("," ++ JSON.member "categories" (categories f) "}")))))).

(** The object kept in [filtersRef.current], and [currentFilters]. *)
Module FiltersRef.
Record t : Type := mk {
  keyword : string;
  selectedProvince : string;
  sidebarFilters : SidebarFilters;
  sortBy : string
}.
End FiltersRef.

(** The [filters] argument of [wpService.getJobs]:
    [{ search, location, sortBy, ...sidebarFilters }]. *)
Module JobFilters.
Record t : Type := mk {
  search : string;
  location : string;
  sortBy : string;
  facets : SidebarFilters
}.
End JobFilters.

(** What [wpService.getJobs] resolves to. *)
Module JobsResponse.
Record t : Type := mk {
  jobs : list Job;
  currentPage : Z;
  hasMore : bool;
  totalJobs : Z
}.
End JobsResponse.

(** Modelled from the spec: [FilterData] of [@/services/wpService] is not
    among the sources; the page reads the province keys of
    [nexjob_lokasi_provinsi] and otherwise only tests the value against
    [null]. *)
Record FilterData : Type := mkFilterData {
  nexjob_lokasi_provinsi : list (string * list string)
}.

(** The props the page is mounted with.  [None] stands for a field of
    [initialSearchParams] that is [undefined]. *)
Record SearchParams : Type := mkSearchParams {
  search : option string;
  location : option string;
  category : option string
}.

Record Props : Type := mkProps {
  initialJobs : list Job;
  initialFilterData : option FilterData;
  initialSearchParams : SearchParams;
  initialTotalJobs : Z
}.

(** The component state: one field per [useState] hook that a handler
    touches, the [filtersRef] ref and the router. *)
Record State : Type := mkState {
  jobs : list Job;
  searching : bool;
  loadingMore : bool;
  error : option string;
  filterData : option FilterData;
  currentPage : Z;
  hasMore : bool;
  totalJobs : Z;
  keyword : string;
  selectedProvince : string;
  sidebarFilters : SidebarFilters;
  sortBy : string;
  filtersRef : FiltersRef.t;
  router : Router.t
}.

Definition setJobs (v : list Job) (s : State) : State :=
  mkState v (searching s) (loadingMore s) (error s) (filterData s) (currentPage s) (hasMore s) (totalJobs s) (keyword s) (selectedProvince s) (sidebarFilters s) (sortBy s) (filtersRef s) (router s).
Definition setSearching (v : bool) (s : State) : State :=
  mkState (jobs s) v (loadingMore s) (error s) (filterData s) (currentPage s) (hasMore s) (totalJobs s) (keyword s) (selectedProvince s) (sidebarFilters s) (sortBy s) (filtersRef s) (router s).
Definition setLoadingMore (v : bool) (s : State) : State :=
  mkState (jobs s) (searching s) v (error s) (filterData s) (currentPage s) (hasMore s) (totalJobs s) (keyword s) (selectedProvince s) (sidebarFilters s) (sortBy s) (filtersRef s) (router s).
Definition setError (v : option string) (s : State) : State :=
  mkState (jobs s) (searching s) (loadingMore s) v (filterData s) (currentPage s) (hasMore s) (totalJobs s) (keyword s) (selectedProvince s) (sidebarFilters s) (sortBy s) (filtersRef s) (router s).
Definition setCurrentPage (v : Z) (s : State) : State :=
  mkState (jobs s) (searching s) (loadingMore s) (error s) (filterData s) v (hasMore s) (totalJobs s) (keyword s) (selectedProvince s) (sidebarFilters s) (sortBy s) (filtersRef s) (router s).
Definition setHasMore (v : bool) (s : State) : State :=
  mkState (jobs s) (searching s) (loadingMore s) (error s) (filterData s) (currentPage s) v (totalJobs s) (keyword s) (selectedProvince s) (sidebarFilters s) (sortBy s) (filtersRef s) (router s).
Definition setTotalJobs (v : Z) (s : State) : State :=
  mkState (jobs s) (searching s) (loadingMore s) (error s) (filterData s) (currentPage s) (hasMore s) v (keyword s) (selectedProvince s) (sidebarFilters s) (sortBy s) (filtersRef s) (router s).
Definition setKeyword (v : string) (s : State) : State :=
  mkState (jobs s) (searching s) (loadingMore s) (error s) (filterData s) (currentPage s) (hasMore s) (totalJobs s) v (selectedProvince s) (sidebarFilters s) (sortBy s) (filtersRef s) (router s).
Definition setSelectedProvince (v : string) (s : State) : State :=
  mkState (jobs s) (searching s) (loadingMore s) (error s) (filterData s) (currentPage s) (hasMore s) (totalJobs s) (keyword s) v (sidebarFilters s) (sortBy s) (filtersRef s) (router s).
Definition setSidebarFilters (v : SidebarFilters) (s : State) : State :=
  mkState (jobs s) (searching s) (loadingMore s) (error s) (filterData s) (currentPage s) (hasMore s) (totalJobs s) (keyword s) (selectedProvince s) v (sortBy s) (filtersRef s) (router s).
Definition setSortBy (v : string) (s : State) : State :=
  mkState (jobs s) (searching s) (loadingMore s) (error s) (filterData s) (currentPage s) (hasMore s) (totalJobs s) (keyword s) (selectedProvince s) (sidebarFilters s) v (filtersRef s) (router s).
Definition setFiltersRef (v : FiltersRef.t) (s : State) : State :=
  mkState (jobs s) (searching s) (loadingMore s) (error s) (filterData s) (currentPage s) (hasMore s) (totalJobs s) (keyword s) (selectedProvince s) (sidebarFilters s) (sortBy s) v (router s).
Definition setRouter (v : Router.t) (s : State) : State :=
  mkState (jobs s) (searching s) (loadingMore s) (error s) (filterData s) (currentPage s) (hasMore s) (totalJobs s) (keyword s) (selectedProvince s) (sidebarFilters s) (sortBy s) (filtersRef s) v.

(** ** Requests in flight *)

Inductive Caller : Type := ByLoadMore | BySearch.

(** A call [wpService.getJobs(filters, page, pageSize)] whose promise has
    not settled, with the handler that awaits it. *)
Record Request : Type := mkRequest {
  caller : Caller;
  filters : JobFilters.t;
  page : Z;
  pageSize : Z
}.

Inductive Outcome : Type :=
  | Fulfilled (response : JobsResponse.t)
  | Rejected.

Definition isLoadMore (q : Request) : bool :=
  match caller q with ByLoadMore => true | BySearch => false end.

Definition isSearch (q : Request) : bool :=
  match caller q with BySearch => true | ByLoadMore => false end.

(** ** The handlers of [JobSearchPage] *)

Definition currentJobFilters (s : State) : JobFilters.t :=
  JobFilters.mk (keyword s) (selectedProvince s) (sortBy s) (sidebarFilters s).

(** [loadMoreJobs], up to its [await]. *)
Definition loadMoreJobs (s : State) : State * option Request :=
  if loadingMore s || negb (hasMore s) || searching s then (s, None)
  else (setLoadingMore true s,
        Some (mkRequest ByLoadMore (currentJobFilters s) (currentPage s + 1) 24)).

(** [loadMoreJobs], from the fulfilled [await] to the end of [finally]. *)
Definition loadMoreFulfilled (response : JobsResponse.t) (s : State) : State :=
  let s1 :=
    if (0 <? List.length (JobsResponse.jobs response))%nat then
      setHasMore (JobsResponse.hasMore response)
        (setCurrentPage (JobsResponse.currentPage response)
          (setJobs (jobs s ++ JobsResponse.jobs response)%list s))
    else setHasMore false s in
  setLoadingMore false s1.

(** [loadMoreJobs], through [catch] and [finally]. *)
Definition loadMoreRejected (s : State) : State :=
  setLoadingMore false (setHasMore false s).

Definition searchPath : string := "/lowongan-kerja/".

(** The [URLSearchParams] built by [handleFilterSearch]. *)
Definition searchParamsOf (s : State) : URLSearchParams.t :=
  let p0 := URLSearchParams.empty in
  let p1 := if Str.truthy (keyword s)
            then URLSearchParams.set "search" (keyword s) p0 else p0 in
  if Str.truthy (selectedProvince s)
  then URLSearchParams.set "location" (selectedProvince s) p1 else p1.

Definition searchUrl (s : State) : string :=
  searchPath ++ "?" ++ URLSearchParams.toString (searchParamsOf s).

(** [handleFilterSearch], up to its [await]. *)
Definition handleFilterSearch (s : State) : State * option Request :=
  if searching s then (s, None)
  else
    let s1 := setHasMore true (setCurrentPage 1 (setJobs [] (setSearching true s))) in
    let s2 := setError None s1 in
    let s3 := setRouter (Router.replace (searchUrl s) true (router s2)) s2 in
    (s3, Some (mkRequest BySearch (currentJobFilters s) 1 24)).

(** [handleFilterSearch], from the fulfilled [await] to the end of [finally]. *)
Definition searchFulfilled (response : JobsResponse.t) (s : State) : State :=
  setSearching false
    (setTotalJobs (JobsResponse.totalJobs response)
      (setHasMore (JobsResponse.hasMore response)
        (setCurrentPage (JobsResponse.currentPage response)
          (setJobs (JobsResponse.jobs response) s)))).

Definition searchErrorMessage : string :=
  "Gagal memuat data pekerjaan. Silakan coba lagi.".

(** [handleFilterSearch], through [catch] and [finally]. *)
Definition searchRejected (s : State) : State :=
  setSearching false (setError (Some searchErrorMessage) s).

Definition handleMainSearch (s : State) : State * option Request :=
  handleFilterSearch s.

Definition currentFilters (s : State) : FiltersRef.t :=
  FiltersRef.mk (keyword s) (selectedProvince s) (sidebarFilters s) (sortBy s).

(** The [filtersChanged] expression of the filter-watching effect. *)
Definition filtersChanged (current previous : FiltersRef.t) : bool :=
  negb (FiltersRef.keyword current =? FiltersRef.keyword previous)%string
  || negb (FiltersRef.selectedProvince current =? FiltersRef.selectedProvince previous)%string
  || negb (FiltersRef.sortBy current =? FiltersRef.sortBy previous)%string
  || negb (stringifySidebarFilters (FiltersRef.sidebarFilters current)
           =? stringifySidebarFilters (FiltersRef.sidebarFilters previous))%string.

Definition isSome {A : Type} (o : option A) : bool :=
  match o with Some _ => true | None => false end.

(** The effect that watches
    [keyword, selectedProvince, sidebarFilters, sortBy, filterData]. *)
Definition filtersEffect (s : State) : State * option Request :=
  if filtersChanged (currentFilters s) (filtersRef s) && isSome (filterData s)
  then handleFilterSearch (setFiltersRef (currentFilters s) s)
  else (s, None).

Definition handleSidebarFilterChange (newFilters : SidebarFilters) (s : State) : State :=
  setSidebarFilters newFilters s.

Definition handleSortChange (newSortBy : string) (s : State) : State :=
  setSortBy newSortBy s.

Definition clearAllFilters (s : State) : State :=
  let s1 := setSortBy "newest"
              (setSidebarFilters noSidebarFilters
                (setSelectedProvince "" (setKeyword "" s))) in
  setRouter (Router.replace searchPath true (router s1)) s1.

(** The first argument of [removeFilter]: the chips of the page pass
    ['keyword'], ['province'] or a key of [sidebarFilters]. *)
Inductive FilterType : Type :=
  | OfKeyword
  | OfProvince
  | OfFacet (k : FacetName).

Definition removeFilter (filterType : FilterType) (value : option string)
  (s : State) : State :=
  match filterType with
  | OfKeyword => setKeyword "" s
  | OfProvince =>
      setSidebarFilters (setFacet Cities [] (sidebarFilters s))
        (setSelectedProvince "" s)
  | OfFacet k =>
      match value with
      | Some v =>
          if Str.truthy v then
            setSidebarFilters
              (setFacet k
                 (filter (fun item => negb (item =? v)%string)
                    (getFacet k (sidebarFilters s)))
                 (sidebarFilters s)) s
          else s
      | None => s
      end
  end.

(** ** The page as a transition system *)

Record World : Type := mkWorld {
  state : State;
  pending : list Request
}.

Definition issue (w : list Request) (r : State * option Request) : World :=
  match r with
  | (s, Some q) => mkWorld s (w ++ [q])%list
  | (s, None) => mkWorld s w
  end.

(** What the user (or the scroll observer) can do to the page. *)
Inductive Action : Type :=
  | TypeKeyword (value : string)          (* keyword input, [setKeyword] *)
  | SelectProvince (value : string)       (* [SearchableSelect], [setSelectedProvince] *)
  | ChangeSidebar (newFilters : SidebarFilters)
  | ChangeSort (newSortBy : string)
  | ClickSearch                           (* search button or Enter *)
  | ClickClearAll
  | ClickRemove (filterType : FilterType) (value : option string)
  | ScrollNearEnd.                        (* [useInfiniteScroll] calls [loadMoreJobs] *)

(** A handler that writes one of the watched filters is followed by the
    re-render and the filter effect. *)
Definition perform (a : Action) (w : World) : World :=
  let s := state w in
  match a with
  | TypeKeyword v => issue (pending w) (filtersEffect (setKeyword v s))
  | SelectProvince v => issue (pending w) (filtersEffect (setSelectedProvince v s))
  | ChangeSidebar f => issue (pending w) (filtersEffect (handleSidebarFilterChange f s))
  | ChangeSort v => issue (pending w) (filtersEffect (handleSortChange v s))
  | ClickSearch => issue (pending w) (handleMainSearch s)
  | ClickClearAll => issue (pending w) (filtersEffect (clearAllFilters s))
  | ClickRemove t v => issue (pending w) (filtersEffect (removeFilter t v s))
  | ScrollNearEnd => issue (pending w) (loadMoreJobs s)
  end.

(** The continuation that runs when the promise of [q] settles. *)
Definition settle (q : Request) (o : Outcome) (s : State) : State :=
  match caller q, o with
  | ByLoadMore, Fulfilled r => loadMoreFulfilled r s
  | ByLoadMore, Rejected => loadMoreRejected s
  | BySearch, Fulfilled r => searchFulfilled r s
  | BySearch, Rejected => searchRejected s
  end.

Definition orEmpty (o : option string) : string :=
  match o with Some v => v | None => "" end.

(** The state of the first render. *)
Definition initialState (props : Props) (r : Router.t) : State :=
  let params := initialSearchParams props in
  let sidebar :=
    setFacet Categories
      (match category params with
       | Some c => if Str.truthy c then [c] else []
       | None => []
       end) noSidebarFilters in
  {| jobs := initialJobs props;
     searching := false;
     loadingMore := false;
     error := None;
     filterData := initialFilterData props;
     currentPage := 1;
     hasMore := true;
     totalJobs := initialTotalJobs props;
     keyword := orEmpty (search params);
     selectedProvince := orEmpty (location params);
     sidebarFilters := sidebar;
     sortBy := "newest";
     filtersRef := FiltersRef.mk "" "" sidebar "newest";
     router := r |}.

(** Mounting runs the filter effect once. *)
Definition mount (props : Props) (r : Router.t) : World :=
  issue [] (filtersEffect (initialState props r)).

Inductive step : World -> World -> Prop :=
  | step_perform (a : Action) (w : World) :
      step w (perform a w)
  | step_settle (w : World) (before after : list Request) (q : Request)
      (o : Outcome) :
      pending w = (before ++ q :: after)%list ->
      step w (mkWorld (settle q o (state w)) (before ++ after)%list).

Inductive reachable : World -> Prop :=
  | reachable_mount (props : Props) (r : Router.t) :
      reachable (mount props r)
  | reachable_step (w w' : World) :
      reachable w -> step w w' -> reachable w'.

(** A run of actions and settlements, for concrete scenarios: [Settle i o]
    settles the [i]-th pending request. *)
Inductive Event : Type :=
  | Do (a : Action)
  | Settle (i : nat) (o : Outcome).

Fixpoint removeNth {A : Type} (i : nat) (l : list A) : list A :=
  match i, l with
  | _, [] => []
  | O, _ :: rest => rest
  | S i', x :: rest => x :: removeNth i' rest
  end.

Definition fire (e : Event) (w : World) : World :=
  match e with
  | Do a => perform a w
  | Settle i o =>
      match nth_error (pending w) i with
      | Some q => mkWorld (settle q o (state w)) (removeNth i (pending w))
      | None => w
      end
  end.

Definition run (es : list Event) (w : World) : World :=
  fold_left (fun w e => fire e w) es w.

(** ** Vocabulary of the properties *)

(** Two filter sets that agree up to the order of the values inside each
    facet array. *)
Definition sameUpToFacetOrder (a b : FiltersRef.t) : Prop :=
  FiltersRef.keyword a = FiltersRef.keyword b /\
  FiltersRef.selectedProvince a = FiltersRef.selectedProvince b /\
  FiltersRef.sortBy a = FiltersRef.sortBy b /\
  forall k : FacetName,
    Permutation (getFacet k (FiltersRef.sidebarFilters a))
                (getFacet k (FiltersRef.sidebarFilters b)).

Definition countLoadMore (l : list Request) : nat :=
  List.length (filter isLoadMore l).

Definition countSearch (l : list Request) : nat :=
  List.length (filter isSearch l).

(** The two flags agree with what is in flight. *)
Definition flagsMatch (s : State) (l : list Request) : Prop :=
  countLoadMore l = (if loadingMore s then 1 else 0)%nat /\
  countSearch l = (if searching s then 1 else 0)%nat.

(** With filter data loaded, the ref holds the filters of the state. *)
Definition synced (s : State) : Prop :=
  filterData s <> None -> filtersRef s = currentFilters s.

(** Steps during which the search that is in flight stays in flight. *)
Inductive searchStays : World -> World -> Prop :=
  | searchStays_refl (w : World) : searchStays w w
  | searchStays_step (w w' w'' : World) :
      searchStays w w' -> step w' w'' -> searching (state w'') = true ->
      searchStays w w''.

(** Steps that neither start nor settle a search. *)
Inductive paginationStep : World -> World -> Prop :=
  | paginationStep_perform (a : Action) (w : World) :
      countSearch (pending (perform a w)) = countSearch (pending w) ->
      paginationStep w (perform a w)
  | paginationStep_settle (w : World) (before after : list Request)
      (q : Request) (o : Outcome) :
      pending w = (before ++ q :: after)%list ->
      caller q = ByLoadMore ->
      paginationStep w (mkWorld (settle q o (state w)) (before ++ after)%list).

Inductive paginationRun : World -> World -> Prop :=
  | paginationRun_refl (w : World) : paginationRun w w
  | paginationRun_step (w w' w'' : World) :
      paginationRun w w' -> paginationStep w' w'' -> paginationRun w w''.

(** The three ways in which [perform] can issue a request. *)
Inductive Starter : Type := ViaEffect | ViaSearch | ViaLoadMore.

Definition start (h : Starter) : State -> State * option Request :=
  match h with
  | ViaEffect => filtersEffect
  | ViaSearch => handleFilterSearch
  | ViaLoadMore => loadMoreJobs
  end.

(** Every action is a synchronous handler followed by one starter. *)
Definition handlerOf (a : Action) : State -> State :=
  match a with
  | TypeKeyword v => setKeyword v
  | SelectProvince v => setSelectedProvince v
  | ChangeSidebar f => handleSidebarFilterChange f
  | ChangeSort v => handleSortChange v
  | ClickSearch => fun s => s
  | ClickClearAll => clearAllFilters
  | ClickRemove t v => removeFilter t v
  | ScrollNearEnd => fun s => s
  end.

Definition starterOf (a : Action) : Starter :=
  match a with
  | ClickSearch => ViaSearch
  | ScrollNearEnd => ViaLoadMore
  | _ => ViaEffect
  end.

(** ** More of the page and of its neighbours *)

(** Any number of steps. *)
Inductive steps : World -> World -> Prop :=
  | steps_refl (w : World) : steps w w
  | steps_step (w w' w'' : World) : steps w w' -> step w' w'' -> steps w w''.

Definition FacetName_eqb (k k' : FacetName) : bool :=
  match k, k' with
  | Cities, Cities | JobTypes, JobTypes | Experiences, Experiences
  | Educations, Educations | Industries, Industries
  | WorkPolicies, WorkPolicies | Categories, Categories => true
  | _, _ => false
  end.

(** [Object.values(sidebarFilters)] *)
Definition facetValues (f : SidebarFilters) : list (list string) :=
  [cities f; jobTypes f; experiences f; educations f; industries f;
   workPolicies f; categories f].

(** [getActiveFiltersCount] *)
Definition getActiveFiltersCount (s : State) : nat :=
  let count := 0%nat in
  let count := if Str.truthy (keyword s) then S count else count in
  let count := if Str.truthy (selectedProvince s) then S count else count in
  fold_left (fun count filterArray => (count + List.length filterArray)%nat)
    (facetValues (sidebarFilters s)) count.

(** The number of selected facet values. *)
Definition facetTotal (f : SidebarFilters) : nat :=
  (List.length (cities f) + List.length (jobTypes f) + List.length (experiences f) +
   List.length (educations f) + List.length (industries f) +
   List.length (workPolicies f) + List.length (categories f))%nat.

(** A predicate on every character of a string. *)
Fixpoint allChars (p : ascii -> bool) (s : string) : bool :=
  match s with
  | EmptyString => true
  | String c s' => p c && allChars p s'
  end.

(** The characters [URLSearchParams.toString] writes for a name or a
    value: the unreserved ones, [+], and [%] with its hex digits. *)
Definition formSafe (c : ascii) : bool :=
  URLSearchParams.unreserved (N_of_ascii c) || (c =? "+")%char || (c =? "%")%char.

(** The characters that would end or split a query parameter. *)
Definition delimiter (c : ascii) : bool :=
  (c =? "&")%char || (c =? "=")%char || (c =? "#")%char || (c =? "?")%char ||
  (c =? " ")%char || (c =? "/")%char.



(** [encodeURIComponent]: UTF-8, everything but the ASCII alphanumerics
    and [- _ . ! ~ * ' ( )] as [%XX]. *)
Module URI.

Definition unescaped (b : N) : bool :=
  ((48 <=? b) && (b <=? 57) || (65 <=? b) && (b <=? 90) ||
   (97 <=? b) && (b <=? 122) ||
   (b =? 45) || (b =? 95) || (b =? 46) || (b =? 33) || (b =? 126) ||
   (b =? 42) || (b =? 39) || (b =? 40) || (b =? 41))%N.

Definition encodeByte (b : N) : string :=
  if unescaped b then Str.single (ascii_of_N b)
  else URLSearchParams.percentEncode b.

Fixpoint encodeBytes (bs : list N) : string :=
  match bs with
  | [] => ""
  | b :: rest => encodeByte b ++ encodeBytes rest
  end.

Fixpoint encodeURIComponent (s : string) : string :=
  match s with
  | EmptyString => ""
  | String c s' => encodeBytes (URLSearchParams.utf8 c) ++ encodeURIComponent s'
  end.

(** The characters [encodeURIComponent] writes. *)
Definition componentSafe (c : ascii) : bool :=
  unescaped (N_of_ascii c) || (c =? "%")%char.

End URI.

(** The handlers of [HomePage] that leave for another page. *)
Module HomePage.

Record State : Type := mk {
  searchKeyword : string;
  selectedLocation : string;
  router : Router.t
}.

Definition setRouter (v : Router.t) (s : State) : State :=
  mk (searchKeyword s) (selectedLocation s) v.

Definition searchParamsOf (s : State) : URLSearchParams.t :=
  let p0 := URLSearchParams.empty in
  let p1 := if Str.truthy (searchKeyword s)
            then URLSearchParams.set "search" (searchKeyword s) p0 else p0 in
  if Str.truthy (selectedLocation s)
  then URLSearchParams.set "location" (selectedLocation s) p1 else p1.

Definition handleSearch (s : State) : State :=
  let url := "/lowongan-kerja/?" ++ URLSearchParams.toString (searchParamsOf s) in
  setRouter (Router.push url false (router s)) s.

Definition handleCategoryClick (category : string) (s : State) : State :=
  let url := "/lowongan-kerja/?category=" ++ URI.encodeURIComponent category in
  setRouter (Router.push url false (router s)) s.

Definition handleArticleClick (articleSlug : string) (s : State) : State :=
  setRouter (Router.push ("/artikel/" ++ articleSlug ++ "/") false (router s)) s.

End HomePage.

(** [getServerSideProps] of the jobs route, followed by the props that
    [Jobs] hands to [JobSearchPage].  The two calls on the service are
    arguments: [None] stands for a promise that rejects.
    [adminService.getSettings] is taken not to throw. *)
Module JobsRoute.

Record Query : Type := mkQuery {
  search : option string;
  location : option string;
  category : option string
}.

(** The filters of the server-side call: it passes [categories] and no
    other facet. *)
Record ServerFilters : Type := mkServerFilters {
  f_search : string;
  f_location : string;
  f_categories : list string;
  f_sortBy : string
}.

Definition serverFilters (query : Query) : ServerFilters :=
  let c := orEmpty (category query) in
  mkServerFilters (orEmpty (search query)) (orEmpty (location query))
    (if Str.truthy c then [c] else []) "newest".

Definition getServerSideProps
  (getJobs : ServerFilters -> Z -> Z -> option JobsResponse.t)
  (getFiltersData : option (option FilterData))
  (query : Query) : Props :=
  match getJobs (serverFilters query) 1%Z 24%Z, getFiltersData with
  | Some jobsResponse, Some filterData =>
      mkProps (JobsResponse.jobs jobsResponse) filterData
        (mkSearchParams (Some (orEmpty (search query)))
           (Some (orEmpty (location query)))
           (Some (orEmpty (category query))))
        (JobsResponse.totalJobs jobsResponse)
  | _, _ => mkProps [] None (mkSearchParams None None None) 0%Z
  end.

End JobsRoute.

(** [getJobTags] of [JobDetailPage]. *)
Module JobDetailPage.

(** [s.split(', ')] *)
Fixpoint splitCommaSpace (s : string) : list string :=
  match s with
  | EmptyString => [""]
  | String c rest =>
      let continue :=
        match splitCommaSpace rest with
        | piece :: more => String c piece :: more
        | [] => [String c ""]
        end in
      match rest with
      | String c2 rest' =>
          if (c =? ",")%char && (c2 =? " ")%char
          then "" :: splitCommaSpace rest'
          else continue
      | EmptyString => continue
      end
  end.

(** White space and line terminators among the code units 0..255. *)
Definition isWhiteSpace (c : ascii) : bool :=
  let n := N_of_ascii c in
  ((9 <=? n) && (n <=? 13) || (n =? 32) || (n =? 160))%N.

Fixpoint trimStart (s : string) : string :=
  match s with
  | EmptyString => ""
  | String c s' => if isWhiteSpace c then trimStart s' else s
  end.

Fixpoint trimEnd (s : string) : string :=
  match s with
  | EmptyString => ""
  | String c s' =>
      match trimEnd s' with
      | EmptyString => if isWhiteSpace c then "" else String c ""
      | t => String c t
      end
  end.

Definition trim (s : string) : string := trimEnd (trimStart s).

Definition getJobTags (tagString : string) : list string :=
  if negb (Str.truthy tagString) then []
  else filter (fun tag => (0 <? String.length tag)%nat)
         (map trim (splitCommaSpace tagString)).

(** A tag as [getJobTags] returns it: not empty, no white space at either
    end. *)
Definition firstChar (s : string) : option ascii :=
  match s with
  | EmptyString => None
  | String c _ => Some c
  end.

Fixpoint lastChar (s : string) : option ascii :=
  match s with
  | EmptyString => None
  | String c s' =>
      match lastChar s' with
      | None => Some c
      | Some d => Some d
      end
  end.

Definition edgeIsBlack (o : option ascii) : bool :=
  match o with
  | Some c => negb (isWhiteSpace c)
  | None => false
  end.

Definition tidy (tag : string) : bool :=
  edgeIsBlack (firstChar tag) && edgeIsBlack (lastChar tag).

(** No [", "] inside, so that [split] leaves the string whole. *)
Fixpoint unsplittable (s : string) : bool :=
  match s with
  | EmptyString => true
  | String c rest =>
      match rest with
      | String c2 _ =>
          if (c =? ",")%char && (c2 =? " ")%char then false else unsplittable rest
      | EmptyString => true
      end
  end.

End JobDetailPage.

(** Whether [", "] starts at the character [c] that is followed by
    [rest]. *)
Definition separatorAt (c : ascii) (rest : string) : bool :=
  match rest with
  | String c2 _ => (c =? ",")%char && (c2 =? " ")%char
  | EmptyString => false
  end.

(** Steps that leave the filter set as it is. *)
Inductive sameFiltersRun : World -> World -> Prop :=
  | sameFiltersRun_refl (w : World) : sameFiltersRun w w
  | sameFiltersRun_step (w w' w'' : World) :
      sameFiltersRun w w' -> step w' w'' ->
      currentFilters (state w'') = currentFilters (state w') ->
      sameFiltersRun w w''.

(** ** Strings beyond the code units 0..255

    A JavaScript string as the list of its UTF-16 code units, for the one
    place where the page lets the full range matter: [URLSearchParams]
    first converts a value to a USVString (a surrogate pair becomes its
    code point, a lone surrogate becomes U+FFFD) and then writes its
    UTF-8 bytes. *)
Module Wide.

Definition isHigh (u : N) : bool := ((55296 <=? u) && (u <=? 56319))%N.
Definition isLow (u : N) : bool := ((56320 <=? u) && (u <=? 57343))%N.

(** The code points of the USVString of a string. *)
Fixpoint toScalars (l : list N) : list N :=
  match l with
  | [] => []
  | u :: rest =>
      if isHigh u then
        match rest with
        | v :: rest' =>
            if isLow v
            then (65536 + (u - 55296) * 1024 + (v - 56320))%N :: toScalars rest'
            else 65533%N :: toScalars rest
        | [] => [65533%N]
        end
      else if isLow u then 65533%N :: toScalars rest
      else u :: toScalars rest
  end.

Definition utf8 (cp : N) : list N :=
  if (cp <? 128)%N then [cp]
  else if (cp <? 2048)%N then [(192 + cp / 64)%N; (128 + cp mod 64)%N]
  else if (cp <? 65536)%N then
    [(224 + cp / 4096)%N; (128 + (cp / 64) mod 64)%N; (128 + cp mod 64)%N]
  else
    [(240 + cp / 262144)%N; (128 + (cp / 4096) mod 64)%N;
     (128 + (cp / 64) mod 64)%N; (128 + cp mod 64)%N].

Fixpoint encodeScalars (l : list N) : string :=
  match l with
  | [] => ""
  | cp :: rest => URLSearchParams.encodeBytes (utf8 cp) ++ encodeScalars rest
  end.

(** The form encoding of a value. *)
Definition encode (l : list N) : string := encodeScalars (toScalars l).

Definition truthy (l : list N) : bool :=
  match l with
  | [] => false
  | _ :: _ => true
  end.

(** The query string [handleFilterSearch] and [HomePage.handleSearch]
    build from a keyword and a province. *)
Definition params : Type := list (string * list N).

Fixpoint delete (name : string) (l : params) : params :=
  match l with
  | [] => []
  | (k, v) :: rest =>
      if (k =? name)%string then delete name rest else (k, v) :: delete name rest
  end.

Fixpoint set (name : string) (value : list N) (l : params) : params :=
  match l with
  | [] => [(name, value)]
  | (k, v) :: rest =>
      if (k =? name)%string then (name, value) :: delete name rest
      else (k, v) :: set name value rest
  end.

Fixpoint toString (l : params) : string :=
  match l with
  | [] => ""
  | [(k, v)] => URLSearchParams.encode k ++ "=" ++ encode v
  | (k, v) :: rest =>
      URLSearchParams.encode k ++ "=" ++ encode v ++ "&" ++ toString rest
  end.

Definition searchUrl (keyword province : list N) : string :=
  let p0 : params := [] in
  let p1 := if truthy keyword then set "search" keyword p0 else p0 in
  let p2 := if truthy province then set "location" province p1 else p1 in
  searchPath ++ "?" ++ toString p2.




End Wide.



(** Some scenery for concrete scenarios. *)
Definition someRouter : Router.t := Router.mk "/lowongan-kerja/" ["/"] false.

Definition someFilterData : FilterData :=
  mkFilterData [("DKI Jakarta", ["Jakarta Selatan"; "Jakarta Pusat"]);
                ("Jawa Barat", ["Bandung"])].

Definition job1 : Job := mkJob 1 "backend-developer".
Definition job2 : Job := mkJob 2 "frontend-developer".

Definition plainProps : Props :=
  mkProps [job1] (Some someFilterData) (mkSearchParams None None None) 1.

Definition withCities (cs : list string) : SidebarFilters :=
  setFacet Cities cs noSidebarFilters.

(** * Facts *)

(** ** Strings *)

Lemma str_app_assoc (a b c : string) : (a ++ b) ++ c = a ++ (b ++ c).
Proof. induction a as [|x a IH]; simpl; [reflexivity | now rewrite IH]. Qed.

Lemma str_app_nil_r (a : string) : a ++ "" = a.
Proof. induction a as [|x a IH]; simpl; [reflexivity | now rewrite IH]. Qed.

Lemma str_app_inv_head (p a b : string) : p ++ a = p ++ b -> a = b.
Proof.
  induction p as [|x p IH]; simpl; intros H; [exact H|].
  injection H as H. exact (IH H).
Qed.

Lemma str_cons_inj (c : ascii) (a b : string) : String c a = String c b -> a = b.
Proof. intros H. now injection H. Qed.

Lemma truthy_false_iff (s : string) : Str.truthy s = false <-> s = "".
Proof. destruct s; simpl; split; congruence. Qed.

Lemma truthy_true_iff (s : string) : Str.truthy s = true <-> s <> "".
Proof. destruct s; simpl; split; congruence. Qed.

(** ** [JSON.stringify] loses nothing

    A quoted string is self-delimiting: whatever follows it, the quoted
    text determines the string.  From there an array of strings and the
    seven-member object are read back member by member. *)

Lemma unquote_quoteChar (c : ascii) (r : string) :
  JSON.unquoteChar (JSON.quoteChar c ++ r) = Some (c, r).
Proof.
  destruct c as [b0 b1 b2 b3 b4 b5 b6 b7].
  destruct b0, b1, b2, b3, b4, b5, b6, b7; reflexivity.
Qed.

Lemma quoteChar_prefix (a b : ascii) (r1 r2 : string) :
  JSON.quoteChar a ++ r1 = JSON.quoteChar b ++ r2 -> a = b /\ r1 = r2.
Proof.
  intros H. apply (f_equal JSON.unquoteChar) in H.
  rewrite !unquote_quoteChar in H. injection H as -> ->. now split.
Qed.

Lemma quoteChar_not_closing (a : ascii) (r1 r2 : string) :
  JSON.quoteChar a ++ r1 <> String Str.dquote r2.
Proof.
  intros H. apply (f_equal JSON.unquoteChar) in H.
  rewrite unquote_quoteChar in H. discriminate H.
Qed.

Lemma quoteBody_prefix (s t : string) (r1 r2 : string) :
  JSON.quoteBody s ++ String Str.dquote r1 = JSON.quoteBody t ++ String Str.dquote r2 ->
  s = t /\ r1 = r2.
Proof.
  revert t. induction s as [|a s IH]; intros [|b t] H; simpl in H.
  - injection H as ->. now split.
  - rewrite str_app_assoc in H. symmetry in H.
    now apply quoteChar_not_closing in H.
  - rewrite str_app_assoc in H. now apply quoteChar_not_closing in H.
  - rewrite !str_app_assoc in H. apply quoteChar_prefix in H as [-> H].
    apply IH in H as [-> ->]. now split.
Qed.

Lemma quoteString_prefix (s t : string) (r1 r2 : string) :
  JSON.quoteString s ++ r1 = JSON.quoteString t ++ r2 -> s = t /\ r1 = r2.
Proof.
  unfold JSON.quoteString, Str.single. simpl. rewrite !str_app_assoc. simpl.
  intros H. injection H as H. now apply quoteBody_prefix.
Qed.

Lemma joinElements_cons (x : string) (xs : list string) :
  JSON.joinElements (x :: xs) =
  JSON.quoteString x ++
    match xs with [] => "" | _ :: _ => "," ++ JSON.joinElements xs end.
Proof. destruct xs; simpl; [now rewrite str_app_nil_r | reflexivity]. Qed.

Lemma joinElements_prefix (xs ys : list string) (r1 r2 : string) :
  JSON.joinElements xs ++ String "]" r1 = JSON.joinElements ys ++ String "]" r2 ->
  xs = ys /\ r1 = r2.
Proof.
  revert ys. induction xs as [|x xs IH]; intros [|y ys].
  - simpl. intros H. injection H as ->. now split.
  - rewrite joinElements_cons. unfold JSON.quoteString. simpl. discriminate.
  - rewrite joinElements_cons. unfold JSON.quoteString. simpl. discriminate.
  - rewrite !joinElements_cons, !str_app_assoc. intros H.
    apply quoteString_prefix in H as [-> H].
    destruct xs as [|x' xs], ys as [|y' ys]; cbn [append] in H.
    + injection H as ->. now split.
    + discriminate H.
    + discriminate H.
    + apply str_cons_inj in H. apply IH in H as [H ->]. now rewrite H.
Qed.

Lemma stringifyArray_prefix (xs ys : list string) (r1 r2 : string) :
  JSON.stringifyArray xs ++ r1 = JSON.stringifyArray ys ++ r2 ->
  xs = ys /\ r1 = r2.
Proof.
  unfold JSON.stringifyArray. simpl. rewrite !str_app_assoc. simpl.
  intros H. injection H as H. now apply joinElements_prefix.
Qed.

Lemma member_prefix (key : string) (xs ys : list string) (r1 r2 : string) :
  JSON.member key xs r1 = JSON.member key ys r2 -> xs = ys /\ r1 = r2.
Proof.
  unfold JSON.member. intros H.
  apply str_app_inv_head in H. cbn [append] in H. apply str_cons_inj in H.
  now apply stringifyArray_prefix.
Qed.

Lemma stringifySidebarFilters_inj (f g : SidebarFilters) :
  stringifySidebarFilters f = stringifySidebarFilters g -> f = g.
Proof.
  destruct f as [a1 a2 a3 a4 a5 a6 a7], g as [b1 b2 b3 b4 b5 b6 b7].
  unfold stringifySidebarFilters. cbn [cities jobTypes experiences educations
    industries workPolicies categories].
  intros H. cbn [append] in H. apply str_cons_inj in H.
  repeat (apply member_prefix in H as [-> H];
          try (cbn [append] in H; apply str_cons_inj in H)).
  reflexivity.
Qed.

Lemma filtersChanged_false (current previous : FiltersRef.t) :
  filtersChanged current previous = false <-> current = previous.
Proof.
  destruct current as [k1 p1 f1 o1], previous as [k2 p2 f2 o2].
  unfold filtersChanged. cbn [FiltersRef.keyword FiltersRef.selectedProvince
    FiltersRef.sidebarFilters FiltersRef.sortBy].
  rewrite !orb_false_iff, !negb_false_iff, !String.eqb_eq. split.
  - intros [[[-> ->] ->] H]. apply stringifySidebarFilters_inj in H.
    now rewrite H.
  - intros H. injection H as -> -> -> ->. now repeat split.
Qed.


(** ** C1: the filter comparison *)

Lemma filtersEffect_unchanged (s : State) :
  currentFilters s = filtersRef s -> filtersEffect s = (s, None).
Proof.
  intros H. unfold filtersEffect.
  now rewrite (proj2 (filtersChanged_false _ _) H).
Qed.

Lemma filtersChanged_true (current previous : FiltersRef.t) :
  filtersChanged current previous = true <-> current <> previous.
Proof.
  rewrite <- filtersChanged_false. destruct (filtersChanged current previous);
    split; congruence.
Qed.

(** C1, as stated, fails: the two filter sets below differ only in the
    order of the two selected cities, yet [filtersChanged] is true, and on
    the page the reordering starts a second search. *)
Lemma C1_facet_order_counterexample :
  let previous := FiltersRef.mk "" "" (withCities ["A"; "B"]) "newest" in
  let current := FiltersRef.mk "" "" (withCities ["B"; "A"]) "newest" in
  let w := run [Do (ChangeSidebar (withCities ["A"; "B"]));
                Settle 0 (Fulfilled (JobsResponse.mk [job1] 1 false 1))]
               (mount plainProps someRouter) in
  sameUpToFacetOrder current previous /\
  filtersChanged current previous = true /\
  filtersRef (state w) = previous /\
  pending w = [] /\
  pending (perform (ChangeSidebar (withCities ["B"; "A"])) w) =
    [mkRequest BySearch (JobFilters.mk "" "" "newest" (withCities ["B"; "A"])) 1 24].
Proof.
  cbv zeta. split; [|repeat split; reflexivity].
  repeat split; try reflexivity.
  intros k. destruct k; simpl; try apply Permutation_refl.
  apply perm_swap.
Qed.

(** C1, amended: the comparison is structural and order-sensitive.  The
    decision is "unchanged" exactly when keyword, province, sort order and
    every facet array (same values in the same order) coincide; then the
    effect does nothing, and otherwise, with filter data loaded and no
    search in flight, it starts a search. *)
Theorem C1_filter_comparison_structural (s : State) :
  (filtersChanged (currentFilters s) (filtersRef s) = false <->
   currentFilters s = filtersRef s) /\
  (currentFilters s = filtersRef s -> filtersEffect s = (s, None)) /\
  (currentFilters s <> filtersRef s -> filterData s <> None ->
   searching s = false ->
   snd (filtersEffect s) = Some (mkRequest BySearch (currentJobFilters s) 1 24)).
Proof.
  split; [apply filtersChanged_false|]. split; [apply filtersEffect_unchanged|].
  intros Hne Hfd Hs. apply filtersChanged_true in Hne.
  unfold filtersEffect. rewrite Hne.
  destruct (filterData s); [|congruence]. simpl.
  unfold handleFilterSearch. destruct s; simpl in *. now rewrite Hs.
Qed.

Lemma C1_filter_comparison_structural_witness :
  let s := state (mount plainProps someRouter) in
  let s' := setSidebarFilters (withCities ["B"; "A"]) s in
  (currentFilters s = filtersRef s /\ filtersEffect s = (s, None)) /\
  (currentFilters s' <> filtersRef s' /\ filterData s' <> None /\
   searching s' = false /\
   snd (filtersEffect s') = Some (mkRequest BySearch (currentJobFilters s') 1 24)).
Proof.
  cbv zeta. split.
  - split; [reflexivity|].
    apply (proj1 (proj2 (C1_filter_comparison_structural _))). reflexivity.
  - assert (H1 : currentFilters (setSidebarFilters (withCities ["B"; "A"])
                   (state (mount plainProps someRouter))) <>
                 filtersRef (setSidebarFilters (withCities ["B"; "A"])
                   (state (mount plainProps someRouter)))) by (vm_compute; discriminate).
    assert (H2 : filterData (setSidebarFilters (withCities ["B"; "A"])
                   (state (mount plainProps someRouter))) <> None) by (vm_compute; discriminate).
    split; [exact H1|]. split; [exact H2|]. split; [reflexivity|].
    exact (proj2 (proj2 (C1_filter_comparison_structural _)) H1 H2 eq_refl).
Defined.

(** ** What the handlers do to the flags and to the filters *)

Lemma countLoadMore_app (l : list Request) (q : Request) :
  countLoadMore (l ++ [q]) = (countLoadMore l + (if isLoadMore q then 1 else 0))%nat.
Proof.
  unfold countLoadMore. rewrite filter_app, length_app. simpl.
  now destruct (isLoadMore q).
Qed.

Lemma countSearch_app (l : list Request) (q : Request) :
  countSearch (l ++ [q]) = (countSearch l + (if isSearch q then 1 else 0))%nat.
Proof.
  unfold countSearch. rewrite filter_app, length_app. simpl.
  now destruct (isSearch q).
Qed.

Lemma countLoadMore_middle (before after : list Request) (q : Request) :
  countLoadMore (before ++ q :: after) =
  (countLoadMore (before ++ after) + (if isLoadMore q then 1 else 0))%nat.
Proof.
  unfold countLoadMore. rewrite !filter_app, !length_app. simpl.
  destruct (isLoadMore q); simpl; lia.
Qed.

Lemma countSearch_middle (before after : list Request) (q : Request) :
  countSearch (before ++ q :: after) =
  (countSearch (before ++ after) + (if isSearch q then 1 else 0))%nat.
Proof.
  unfold countSearch. rewrite !filter_app, !length_app. simpl.
  destruct (isSearch q); simpl; lia.
Qed.

Lemma isSearch_isLoadMore (q : Request) : isSearch q = negb (isLoadMore q).
Proof. unfold isSearch, isLoadMore. now destruct (caller q). Qed.

Lemma flagsMatch_ext (s s' : State) (l : list Request) :
  loadingMore s' = loadingMore s -> searching s' = searching s ->
  flagsMatch s l -> flagsMatch s' l.
Proof. unfold flagsMatch. now intros -> ->. Qed.

Lemma handleFilterSearch_cases (s : State) :
  (searching s = true /\ handleFilterSearch s = (s, None)) \/
  (searching s = false /\
   exists s', handleFilterSearch s =
                (s', Some (mkRequest BySearch (currentJobFilters s) 1 24)) /\
     searching s' = true /\ loadingMore s' = loadingMore s /\
     jobs s' = [] /\ currentPage s' = 1%Z /\ hasMore s' = true /\
     error s' = None /\ filterData s' = filterData s /\
     currentFilters s' = currentFilters s /\ filtersRef s' = filtersRef s /\
     router s' = Router.replace (searchUrl s) true (router s)).
Proof.
  unfold handleFilterSearch. destruct (searching s) eqn:E; [now left|].
  right. split; [reflexivity|]. eexists. split; [reflexivity|].
  now repeat split.
Qed.

Lemma loadMoreJobs_cases (s : State) :
  ((loadingMore s = true \/ hasMore s = false \/ searching s = true) /\
   loadMoreJobs s = (s, None)) \/
  (loadingMore s = false /\ hasMore s = true /\ searching s = false /\
   loadMoreJobs s =
     (setLoadingMore true s,
      Some (mkRequest ByLoadMore (currentJobFilters s) (currentPage s + 1) 24))).
Proof.
  unfold loadMoreJobs.
  destruct (loadingMore s), (hasMore s), (searching s); simpl; auto 10.
Qed.

Lemma flagsMatch_start (h : Starter) (s : State) (l : list Request) :
  flagsMatch s l ->
  flagsMatch (state (issue l (start h s))) (pending (issue l (start h s))).
Proof.
  assert (Hsearch : forall s0, flagsMatch s0 l ->
    flagsMatch (state (issue l (handleFilterSearch s0)))
               (pending (issue l (handleFilterSearch s0)))).
  { intros s0 [Hl Hs].
    destruct (handleFilterSearch_cases s0) as [[_ ->] | [E (s' & -> & E1 & E2 & _)]].
    - now split.
    - unfold flagsMatch. simpl. rewrite countLoadMore_app, countSearch_app.
      simpl. rewrite E1, E2, Hl, Hs, E. split; lia. }
  intros H. destruct h; simpl.
  - unfold filtersEffect.
    destruct (filtersChanged _ _ && isSome _); [|exact H].
    apply Hsearch. revert H. now apply flagsMatch_ext.
  - now apply Hsearch.
  - destruct H as [Hl Hs].
    destruct (loadMoreJobs_cases s) as [[_ ->] | (E1 & _ & E2 & ->)].
    + now split.
    + unfold flagsMatch. simpl. rewrite countLoadMore_app, countSearch_app.
      simpl. rewrite Hl, Hs, E1, E2. split; lia.
Qed.

Lemma removeFilter_flags (t : FilterType) (v : option string) (s : State) :
  loadingMore (removeFilter t v s) = loadingMore s /\
  searching (removeFilter t v s) = searching s /\
  filterData (removeFilter t v s) = filterData s /\
  filtersRef (removeFilter t v s) = filtersRef s /\
  jobs (removeFilter t v s) = jobs s /\
  hasMore (removeFilter t v s) = hasMore s.
Proof.
  destruct t as [| |k]; simpl; try now repeat split.
  destruct v as [v|]; [|now repeat split].
  destruct (Str.truthy v); now repeat split.
Qed.

Lemma perform_decompose (a : Action) (w : World) :
  perform a w = issue (pending w) (start (starterOf a) (handlerOf a (state w))).
Proof. now destruct a. Qed.

Lemma handlerOf_frame (a : Action) (s : State) :
  loadingMore (handlerOf a s) = loadingMore s /\
  searching (handlerOf a s) = searching s /\
  filterData (handlerOf a s) = filterData s /\
  filtersRef (handlerOf a s) = filtersRef s /\
  jobs (handlerOf a s) = jobs s /\
  hasMore (handlerOf a s) = hasMore s.
Proof.
  destruct a; simpl; try now repeat split.
  apply removeFilter_flags.
Qed.

Lemma flagsMatch_perform (a : Action) (w : World) :
  flagsMatch (state w) (pending w) ->
  flagsMatch (state (perform a w)) (pending (perform a w)).
Proof.
  intros H. rewrite perform_decompose. apply flagsMatch_start.
  destruct (handlerOf_frame a (state w)) as (E1 & E2 & _).
  revert H. now apply flagsMatch_ext.
Qed.

Lemma settle_flags (q : Request) (o : Outcome) (s : State) :
  loadingMore (settle q o s) = (if isLoadMore q then false else loadingMore s) /\
  searching (settle q o s) = (if isSearch q then false else searching s) /\
  filterData (settle q o s) = filterData s /\
  filtersRef (settle q o s) = filtersRef s /\
  currentFilters (settle q o s) = currentFilters s.
Proof.
  unfold settle, isLoadMore, isSearch.
  destruct (caller q), o as [r|]; simpl; try now repeat split.
  unfold loadMoreFulfilled.
  destruct (0 <? List.length (JobsResponse.jobs r))%nat; now repeat split.
Qed.

Lemma flagsMatch_settle (w : World) (before after : list Request)
  (q : Request) (o : Outcome) :
  pending w = (before ++ q :: after)%list ->
  flagsMatch (state w) (pending w) ->
  flagsMatch (settle q o (state w)) (before ++ after).
Proof.
  intros Hp [Hl Hs]. rewrite Hp in Hl, Hs.
  rewrite countLoadMore_middle in Hl. rewrite countSearch_middle in Hs.
  destruct (settle_flags q o (state w)) as (E1 & E2 & _).
  unfold flagsMatch. rewrite E1, E2. rewrite isSearch_isLoadMore in *.
  destruct (isLoadMore q), (loadingMore (state w)), (searching (state w));
    simpl in *; split; lia.
Qed.

Lemma reachable_flagsMatch (w : World) :
  reachable w -> flagsMatch (state w) (pending w).
Proof.
  induction 1 as [props r | w w' _ IH Hstep].
  - apply (flagsMatch_start ViaEffect). now split.
  - destruct Hstep as [a w | w before after q o Hp].
    + now apply flagsMatch_perform.
    + simpl. now apply flagsMatch_settle.
Qed.

(** ** C2: one [loadMore] at a time *)

Lemma start_adds_loadMore (h : Starter) (s : State) (l : list Request) :
  countLoadMore (pending (issue l (start h s))) <> countLoadMore l ->
  h = ViaLoadMore /\ loadingMore s = false /\ hasMore s = true /\
  searching s = false.
Proof.
  assert (Hsearch : forall s0,
    countLoadMore (pending (issue l (handleFilterSearch s0))) = countLoadMore l).
  { intros s0.
    destruct (handleFilterSearch_cases s0) as [[_ ->] | [_ (s' & -> & _)]];
      simpl; [reflexivity|].
    rewrite countLoadMore_app. simpl. lia. }
  destruct h; simpl.
  - unfold filtersEffect. destruct (filtersChanged _ _ && isSome _).
    + now rewrite Hsearch.
    + simpl. congruence.
  - now rewrite Hsearch.
  - destruct (loadMoreJobs_cases s) as [[_ ->] | (E1 & E2 & E3 & ->)]; simpl.
    + congruence.
    + now intros _.
Qed.

(** C2: in every reachable state at most one [loadMore] request is in
    flight, and an action adds a [loadMore] request only in a state where
    no [loadMore] and no search is pending and [hasMore] is true. *)
Theorem C2_single_loadMore_in_flight (w : World) :
  reachable w ->
  (countLoadMore (pending w) <= 1)%nat /\
  forall a : Action,
    countLoadMore (pending (perform a w)) <> countLoadMore (pending w) ->
    a = ScrollNearEnd /\
    countLoadMore (pending w) = 0%nat /\ countSearch (pending w) = 0%nat /\
    loadingMore (state w) = false /\ searching (state w) = false /\
    hasMore (state w) = true.
Proof.
  intros Hr. destruct (reachable_flagsMatch w Hr) as [Hl Hs]. split.
  - rewrite Hl. destruct (loadingMore (state w)); lia.
  - intros a Ha. rewrite perform_decompose in Ha.
    apply start_adds_loadMore in Ha as (Hh & E1 & E2 & E3).
    destruct (handlerOf_frame a (state w)) as (F1 & F2 & _ & _ & _ & F3).
    rewrite F1 in E1. rewrite F3 in E2. rewrite F2 in E3.
    rewrite Hl, Hs, E1, E3. repeat split; try assumption.
    destruct a; simpl in Hh; congruence.
Qed.

Lemma C2_single_loadMore_in_flight_witness :
  let w := perform ScrollNearEnd (mount plainProps someRouter) in
  reachable w /\ (countLoadMore (pending w) <= 1)%nat /\
  pending (perform ScrollNearEnd w) = pending w.
Proof.
  cbv zeta.
  assert (Hr : reachable (perform ScrollNearEnd (mount plainProps someRouter))).
  { eapply reachable_step; [apply reachable_mount | apply step_perform]. }
  split; [exact Hr|]. split.
  - exact (proj1 (C2_single_loadMore_in_flight _ Hr)).
  - reflexivity.
Defined.


(** ** C3: a filter change restarts the search *)

Lemma state_issue (l : list Request) (r : State * option Request) :
  state (issue l r) = fst r.
Proof. now destruct r as [s [q|]]. Qed.

Lemma currentJobFilters_eq (s s' : State) :
  currentFilters s = currentFilters s' -> currentJobFilters s = currentJobFilters s'.
Proof.
  unfold currentFilters, currentJobFilters. intros H. now injection H as -> -> -> ->.
Qed.

Lemma start_frame (h : Starter) (s : State) :
  currentFilters (fst (start h s)) = currentFilters s /\
  filterData (fst (start h s)) = filterData s.
Proof.
  assert (Hsearch : forall s0,
    currentFilters (fst (handleFilterSearch s0)) = currentFilters s0 /\
    filterData (fst (handleFilterSearch s0)) = filterData s0).
  { intros s0.
    destruct (handleFilterSearch_cases s0)
      as [[_ ->] | [_ (s' & -> & _ & _ & _ & _ & _ & _ & E1 & E2 & _)]];
      now split. }
  destruct h; simpl.
  - unfold filtersEffect. destruct (filtersChanged _ _ && isSome _); [|now split].
    destruct (Hsearch (setFiltersRef (currentFilters s) s)) as [E1 E2].
    now rewrite E1, E2.
  - apply Hsearch.
  - destruct (loadMoreJobs_cases s) as [[_ ->] | (_ & _ & _ & ->)]; now split.
Qed.

Lemma start_synced (h : Starter) (s : State) :
  (h = ViaEffect \/ synced s) -> synced (fst (start h s)).
Proof.
  assert (Hsearch : forall s0, synced s0 -> synced (fst (handleFilterSearch s0))).
  { intros s0 H0.
    destruct (handleFilterSearch_cases s0)
      as [[_ ->] | [_ (s' & -> & _ & _ & _ & _ & _ & _ & E1 & E2 & E3 & _)]];
      [exact H0|].
    unfold synced. simpl. rewrite E1, E2, E3. exact H0. }
  intros H. destruct h; simpl.
  - unfold filtersEffect.
    destruct (filtersChanged (currentFilters s) (filtersRef s)) eqn:Ec; simpl.
    + destruct (filterData s) eqn:Ef; simpl.
      * apply Hsearch. now intros _.
      * unfold synced. congruence.
    + intros _. symmetry. now apply filtersChanged_false.
  - destruct H as [H|H]; [discriminate H | now apply Hsearch].
  - destruct H as [H|H]; [discriminate H|].
    destruct (loadMoreJobs_cases s) as [[_ ->] | (_ & _ & _ & ->)]; exact H.
Qed.

Lemma reachable_synced (w : World) : reachable w -> synced (state w).
Proof.
  induction 1 as [props r | w w' _ IH Hstep].
  - unfold mount. rewrite state_issue. apply (start_synced ViaEffect). now left.
  - destruct Hstep as [a w | w before after q o Hp].
    + rewrite perform_decompose, state_issue. apply start_synced.
      destruct a; simpl; auto.
    + simpl. destruct (settle_flags q o (state w)) as (_ & _ & E1 & E2 & E3).
      unfold synced. rewrite E1, E2, E3. exact IH.
Qed.

(** C3, as stated, fails: while the search for keyword "a" is in flight
    the keyword changes to "ab"; the filter set changed, the ref records
    it as applied, and no search for "ab" is ever issued. *)
Lemma C3_change_during_search_counterexample :
  ~ (forall (w : World) (a : Action),
       reachable w ->
       currentFilters (state (perform a w)) <> currentFilters (state w) ->
       jobs (state (perform a w)) = [] /\
       currentPage (state (perform a w)) = 1%Z /\
       exists q, pending (perform a w) = (pending w ++ [q])%list /\
                 caller q = BySearch /\ page q = 1%Z).
Proof.
  intros H.
  assert (Hr : reachable (perform (TypeKeyword "a") (mount plainProps someRouter))).
  { eapply reachable_step; [apply reachable_mount | apply step_perform]. }
  specialize (H _ (TypeKeyword "ab") Hr).
  destruct H as (_ & _ & q & Hq & _).
  - vm_compute. discriminate.
  - vm_compute in Hq. discriminate Hq.
Qed.

(** C3, amended: a filter-set change made while filter data is loaded and
    no search is in flight resets the list to empty and the page to 1 and
    issues, in the same step, the first-page search for the new filter
    set. *)
Theorem C3_filter_change_restarts_search (w : World) (a : Action) :
  reachable w ->
  filterData (state w) <> None ->
  searching (state w) = false ->
  currentFilters (state (perform a w)) <> currentFilters (state w) ->
  jobs (state (perform a w)) = [] /\
  currentPage (state (perform a w)) = 1%Z /\
  hasMore (state (perform a w)) = true /\
  searching (state (perform a w)) = true /\
  filtersRef (state (perform a w)) = currentFilters (state (perform a w)) /\
  pending (perform a w) =
    (pending w ++ [mkRequest BySearch (currentJobFilters (state (perform a w))) 1 24])%list.
Proof.
  intros Hr Hfd Hs Hne.
  pose proof (reachable_synced w Hr Hfd) as Hsync.
  rewrite perform_decompose in *. rewrite state_issue in *.
  destruct (start_frame (starterOf a) (handlerOf a (state w))) as [Ecur _].
  rewrite Ecur in Hne.
  destruct (handlerOf_frame a (state w)) as (_ & F2 & F3 & F4 & _).
  assert (Hh : starterOf a = ViaEffect).
  { destruct a; simpl in *; congruence. }
  rewrite Hh. simpl. unfold filtersEffect.
  assert (Hc : filtersChanged (currentFilters (handlerOf a (state w)))
                 (filtersRef (handlerOf a (state w))) = true).
  { apply filtersChanged_true. now rewrite F4, Hsync. }
  rewrite Hc. destruct (filterData (handlerOf a (state w))) eqn:Ef; [|congruence].
  simpl.
  destruct (handleFilterSearch_cases
              (setFiltersRef (currentFilters (handlerOf a (state w)))
                 (handlerOf a (state w))))
    as [[E _] | [_ (s' & -> & E1 & _ & E3 & E4 & E5 & _ & _ & E6 & E7 & _)]].
  - simpl in E. congruence.
  - simpl. repeat split; try assumption.
    + now rewrite E7, E6.
    + do 3 f_equal. apply currentJobFilters_eq. now rewrite E6.
Qed.

Lemma C3_filter_change_restarts_search_witness :
  let w := mount plainProps someRouter in
  let w' := perform (TypeKeyword "a") w in
  reachable w /\ jobs (state w) = [job1] /\
  jobs (state w') = [] /\ currentPage (state w') = 1%Z /\
  pending w' = [mkRequest BySearch (JobFilters.mk "a" "" "newest" noSidebarFilters) 1 24].
Proof.
  cbv zeta.
  assert (Hr : reachable (mount plainProps someRouter)) by apply reachable_mount.
  assert (Hfd : filterData (state (mount plainProps someRouter)) <> None)
    by (vm_compute; discriminate).
  assert (Hne : currentFilters (state (perform (TypeKeyword "a") (mount plainProps someRouter)))
                <> currentFilters (state (mount plainProps someRouter)))
    by (vm_compute; discriminate).
  destruct (C3_filter_change_restarts_search _ (TypeKeyword "a") Hr Hfd eq_refl Hne)
    as (H1 & H2 & _ & _ & _ & H6).
  split; [exact Hr|]. split; [reflexivity|]. split; [exact H1|].
  split; [exact H2|]. exact H6.
Defined.


(** ** Concrete runs are reachable *)

Lemma removeNth_split {A : Type} (i : nat) (l : list A) (x : A) :
  nth_error l i = Some x ->
  exists before after,
    l = (before ++ x :: after)%list /\ removeNth i l = (before ++ after)%list.
Proof.
  revert l. induction i as [|i IH]; intros [|y l] H; simpl in H; try discriminate.
  - injection H as ->. now exists [], l.
  - destruct (IH l H) as (before & after & -> & E).
    exists (y :: before), after. simpl. now rewrite E.
Qed.

Lemma reachable_fire (e : Event) (w : World) : reachable w -> reachable (fire e w).
Proof.
  intros Hr. destruct e as [a | i o]; simpl.
  - eapply reachable_step; [exact Hr | apply step_perform].
  - destruct (nth_error (pending w) i) as [q|] eqn:E; [|exact Hr].
    destruct (removeNth_split i (pending w) q E) as (before & after & Hp & ->).
    eapply reachable_step; [exact Hr | now apply step_settle].
Qed.

Lemma reachable_run (es : list Event) (w : World) :
  reachable w -> reachable (run es w).
Proof.
  revert w. induction es as [|e es IH]; intros w Hr; simpl; [exact Hr|].
  apply IH. now apply reachable_fire.
Qed.

(** ** C4: a failed [loadMore] *)

(** C4: when the [getJobs] call of [loadMoreJobs] rejects, [hasMore]
    becomes false, the list of jobs stays as it is and the error message
    is not touched. *)
Theorem C4_loadMore_failure_is_silent (q : Request) (s : State) :
  caller q = ByLoadMore ->
  hasMore (settle q Rejected s) = false /\
  jobs (settle q Rejected s) = jobs s /\
  error (settle q Rejected s) = error s /\
  loadingMore (settle q Rejected s) = false.
Proof. unfold settle. intros ->. now repeat split. Qed.

Lemma C4_loadMore_failure_is_silent_witness :
  let w := perform ScrollNearEnd (mount plainProps someRouter) in
  let q := mkRequest ByLoadMore (JobFilters.mk "" "" "newest" noSidebarFilters) 2 24 in
  pending w = [q] /\ error (state w) = None /\
  hasMore (settle q Rejected (state w)) = false /\
  jobs (settle q Rejected (state w)) = [job1] /\
  error (settle q Rejected (state w)) = None.
Proof.
  cbv zeta. split; [reflexivity|]. split; [reflexivity|].
  destruct (C4_loadMore_failure_is_silent
              (mkRequest ByLoadMore (JobFilters.mk "" "" "newest" noSidebarFilters) 2 24)
              (state (perform ScrollNearEnd (mount plainProps someRouter))) eq_refl)
    as (H1 & H2 & H3 & _).
  split; [exact H1|]. split; [exact H2 | exact H3].
Defined.

(** ** C5: clearing the province *)

Lemma removeFilter_province_clears_cities (v : option string) (s : State) :
  selectedProvince (removeFilter OfProvince v s) = "" /\
  cities (sidebarFilters (removeFilter OfProvince v s)) = [].
Proof. now split. Qed.

Lemma clearAllFilters_clears_cities (s : State) :
  selectedProvince (clearAllFilters s) = "" /\
  cities (sidebarFilters (clearAllFilters s)) = [].
Proof. now split. Qed.

Lemma setSelectedProvince_keeps_sidebar (v : string) (s : State) :
  sidebarFilters (setSelectedProvince v s) = sidebarFilters s.
Proof. reflexivity. Qed.

(** C5 on the code: with province "DKI Jakarta" and city "Jakarta
    Selatan" selected, clearing the province through the province select
    ([setSelectedProvince] with the empty string) leaves the city selected
    and searches with it, whereas the province chip ([removeFilter]) and
    [clearAllFilters] clear the cities. *)
Lemma C5_select_empty_province_keeps_cities :
  let w := run [Do (SelectProvince "DKI Jakarta");
                Settle 0 (Fulfilled (JobsResponse.mk [job1; job2] 1 false 2));
                Do (ChangeSidebar (withCities ["Jakarta Selatan"]));
                Settle 0 (Fulfilled (JobsResponse.mk [job1] 1 false 1))]
               (mount plainProps someRouter) in
  let w' := perform (SelectProvince "") w in
  reachable w /\
  selectedProvince (state w) = "DKI Jakarta" /\
  cities (sidebarFilters (state w)) = ["Jakarta Selatan"] /\
  selectedProvince (state w') = "" /\
  cities (sidebarFilters (state w')) = ["Jakarta Selatan"] /\
  pending w' = [mkRequest BySearch
                  (JobFilters.mk "" "" "newest" (withCities ["Jakarta Selatan"])) 1 24] /\
  cities (sidebarFilters (state (perform (ClickRemove OfProvince None) w))) = [] /\
  cities (sidebarFilters (state (perform ClickClearAll w))) = [].
Proof.
  cbv zeta. split; [apply reachable_run, reachable_mount|].
  repeat split; reflexivity.
Qed.

(** ** C6: a failed search *)

Lemma start_while_searching (h : Starter) (s : State) :
  searching s = true ->
  jobs (fst (start h s)) = jobs s /\
  loadingMore (fst (start h s)) = loadingMore s /\
  searching (fst (start h s)) = true.
Proof.
  intros Hs.
  assert (Hsearch : forall s0, searching s0 = true -> handleFilterSearch s0 = (s0, None)).
  { intros s0 H0. unfold handleFilterSearch. now rewrite H0. }
  destruct h; simpl.
  - unfold filtersEffect. destruct (filtersChanged _ _ && isSome _).
    + rewrite Hsearch by exact Hs. now repeat split.
    + now repeat split.
  - rewrite Hsearch by exact Hs. now repeat split.
  - unfold loadMoreJobs. rewrite Hs, !orb_true_r. now repeat split.
Qed.

Lemma searchStays_reachable (w w' : World) :
  reachable w -> searchStays w w' -> reachable w'.
Proof.
  intros Hr. induction 1 as [|w w' w'' _ IH Hstep _]; [exact Hr|].
  eapply reachable_step; [exact (IH Hr) | exact Hstep].
Qed.

Lemma searchStays_keeps_empty (w w' : World) :
  reachable w ->
  searching (state w) = true -> loadingMore (state w) = false ->
  jobs (state w) = [] ->
  searchStays w w' ->
  searching (state w') = true /\ loadingMore (state w') = false /\
  jobs (state w') = [].
Proof.
  intros Hr Hs Hl Hj. induction 1 as [|w w' w'' Hrun IH Hstep Hs'']; [auto|].
  specialize (IH Hr Hs Hl Hj) as (Is & Il & Ij).
  pose proof (searchStays_reachable _ _ Hr Hrun) as Hr'.
  destruct Hstep as [a w' | w' before after q o Hp].
  - rewrite perform_decompose, state_issue in *.
    destruct (handlerOf_frame a (state w')) as (F1 & F2 & _ & _ & F5 & _).
    destruct (start_while_searching (starterOf a) (handlerOf a (state w')))
      as (E1 & E2 & E3); [congruence|].
    rewrite E1, E2, E3. repeat split; congruence.
  - exfalso. simpl in Hs''.
    destruct (reachable_flagsMatch w' Hr') as [Hc _].
    rewrite Hp, countLoadMore_middle, Il in Hc.
    destruct (settle_flags q o (state w')) as (_ & E2 & _).
    rewrite E2, isSearch_isLoadMore in Hs''.
    destruct (isLoadMore q); simpl in *; [lia | discriminate].
Qed.

(** C6, as stated, fails: a [loadMore] is in flight when the keyword
    changes; its response arrives while the search is in flight and is
    appended to the cleared list; then the search rejects.  The error
    message is set and the list shows a job of the previous filter set. *)
Lemma C6_stale_page_counterexample :
  ~ (forall (w : World) (before after : list Request) (q : Request),
       reachable w -> pending w = (before ++ q :: after)%list ->
       caller q = BySearch ->
       error (settle q Rejected (state w)) = Some searchErrorMessage /\
       jobs (settle q Rejected (state w)) = []).
Proof.
  intros H.
  pose (w := run [Do ScrollNearEnd; Do (TypeKeyword "a");
                  Settle 0 (Fulfilled (JobsResponse.mk [job2] 2 true 30))]
                 (mount plainProps someRouter)).
  assert (Hr : reachable w) by apply reachable_run, reachable_mount.
  destruct (H w [] []
              (mkRequest BySearch (JobFilters.mk "a" "" "newest" noSidebarFilters) 1 24)
              Hr eq_refl eq_refl) as [_ Hj].
  vm_compute in Hj. discriminate Hj.
Qed.

(** C6, amended: when the first-page [getJobs] call rejects, the error
    message is set and the rejection leaves the list as it is.  A search
    that starts clears the list, and the list is still empty at the
    rejection whenever no [loadMore] was in flight when the search
    started. *)
Theorem C6_search_failure :
  (forall (q : Request) (s : State),
     caller q = BySearch ->
     error (settle q Rejected s) = Some searchErrorMessage /\
     jobs (settle q Rejected s) = jobs s /\
     searching (settle q Rejected s) = false) /\
  (forall s : State,
     searching s = false ->
     searching (fst (handleFilterSearch s)) = true /\
     jobs (fst (handleFilterSearch s)) = [] /\
     loadingMore (fst (handleFilterSearch s)) = loadingMore s) /\
  (forall (w w' : World) (before after : list Request) (q : Request),
     reachable w ->
     searching (state w) = true -> loadingMore (state w) = false ->
     jobs (state w) = [] ->
     searchStays w w' ->
     pending w' = (before ++ q :: after)%list -> caller q = BySearch ->
     error (settle q Rejected (state w')) = Some searchErrorMessage /\
     jobs (settle q Rejected (state w')) = []).
Proof.
  split; [|split].
  - intros q s Hq. unfold settle. rewrite Hq. now repeat split.
  - intros s Hs. unfold handleFilterSearch. rewrite Hs. now repeat split.
  - intros w w' before after q Hr Hs Hl Hj Hrun _ Hq.
    destruct (searchStays_keeps_empty w w' Hr Hs Hl Hj Hrun) as (_ & _ & Ej).
    unfold settle. rewrite Hq. simpl. now split.
Qed.

Lemma C6_search_failure_witness :
  let w := perform (TypeKeyword "a") (mount plainProps someRouter) in
  let w' := perform ScrollNearEnd (perform (TypeKeyword "ab") w) in
  let q := mkRequest BySearch (JobFilters.mk "a" "" "newest" noSidebarFilters) 1 24 in
  reachable w /\ searchStays w w' /\ pending w' = [q] /\
  error (settle q Rejected (state w')) = Some searchErrorMessage /\
  jobs (settle q Rejected (state w')) = [].
Proof.
  cbv zeta.
  assert (Hr : reachable (perform (TypeKeyword "a") (mount plainProps someRouter))).
  { eapply reachable_step; [apply reachable_mount | apply step_perform]. }
  assert (Hrun : searchStays (perform (TypeKeyword "a") (mount plainProps someRouter))
                   (perform ScrollNearEnd
                      (perform (TypeKeyword "ab")
                         (perform (TypeKeyword "a") (mount plainProps someRouter))))).
  { eapply searchStays_step; [eapply searchStays_step; [apply searchStays_refl | |] | |];
      try apply step_perform; reflexivity. }
  split; [exact Hr|]. split; [exact Hrun|]. split; [reflexivity|].
  exact (proj2 (proj2 C6_search_failure) _ _ [] []
           (mkRequest BySearch (JobFilters.mk "a" "" "newest" noSidebarFilters) 1 24)
           Hr eq_refl eq_refl eq_refl Hrun eq_refl eq_refl).
Defined.

(** ** C7: responses of an earlier filter set *)

(** C7, as stated, fails: the second page for the empty keyword is
    requested, the keyword changes to "a" and its search is answered, and
    then the second page of the old filter set arrives: its job is
    appended to the results of "a". *)
Lemma C7_stale_response_counterexample :
  ~ (forall (w : World) (before after : list Request) (q : Request)
            (r : JobsResponse.t),
       reachable w -> pending w = (before ++ q :: after)%list ->
       caller q = ByLoadMore ->
       filters q <> currentJobFilters (state w) ->
       jobs (settle q (Fulfilled r) (state w)) = jobs (state w)).
Proof.
  intros H.
  pose (w := run [Do ScrollNearEnd; Do (TypeKeyword "a");
                  Settle 1 (Fulfilled (JobsResponse.mk [job1] 1 true 30))]
                 (mount plainProps someRouter)).
  assert (Hr : reachable w) by apply reachable_run, reachable_mount.
  assert (Hne : filters (mkRequest ByLoadMore
                           (JobFilters.mk "" "" "newest" noSidebarFilters) 2 24)
                <> currentJobFilters (state w)) by (vm_compute; discriminate).
  specialize (H w [] []
                (mkRequest ByLoadMore (JobFilters.mk "" "" "newest" noSidebarFilters) 2 24)
                (JobsResponse.mk [job2] 2 true 30) Hr eq_refl eq_refl Hne).
  vm_compute in H. discriminate H.
Qed.

(** C7, amended: a [loadMore] response is applied on arrival whatever
    filter set its request was issued for; the request's filters play no
    part in the continuation, and a non-empty response is appended to the
    list as it is at that moment. *)
Theorem C7_response_applied_regardless (q : Request) (s : State) :
  (forall (q' : Request) (o : Outcome),
     caller q' = caller q -> settle q' o s = settle q o s) /\
  (forall r : JobsResponse.t,
     caller q = ByLoadMore -> JobsResponse.jobs r <> [] ->
     jobs (settle q (Fulfilled r) s) = (jobs s ++ JobsResponse.jobs r)%list /\
     currentPage (settle q (Fulfilled r) s) = JobsResponse.currentPage r /\
     hasMore (settle q (Fulfilled r) s) = JobsResponse.hasMore r).
Proof.
  split.
  - intros q' o Hq. unfold settle. now rewrite Hq.
  - intros r Hq Hne. unfold settle. rewrite Hq. unfold loadMoreFulfilled.
    destruct (JobsResponse.jobs r) as [|j js]; [congruence|]. now repeat split.
Qed.

Lemma C7_response_applied_regardless_witness :
  let w := run [Do ScrollNearEnd; Do (TypeKeyword "a");
                Settle 1 (Fulfilled (JobsResponse.mk [job1] 1 true 30))]
               (mount plainProps someRouter) in
  let q := mkRequest ByLoadMore (JobFilters.mk "" "" "newest" noSidebarFilters) 2 24 in
  pending w = [q] /\ keyword (state w) = "a" /\
  jobs (settle q (Fulfilled (JobsResponse.mk [job2] 2 true 30)) (state w)) = [job1; job2].
Proof.
  cbv zeta. split; [reflexivity|]. split; [reflexivity|].
  refine (proj1 (proj2 (C7_response_applied_regardless
                          (mkRequest ByLoadMore
                             (JobFilters.mk "" "" "newest" noSidebarFilters) 2 24)
                          (state (run [Do ScrollNearEnd; Do (TypeKeyword "a");
                                       Settle 1 (Fulfilled (JobsResponse.mk [job1] 1 true 30))]
                                      (mount plainProps someRouter))))
                   (JobsResponse.mk [job2] 2 true 30) eq_refl _)).
  discriminate.
Defined.

(** ** C8: the end of the pages *)

(** C8, as stated, fails: a [loadMore] response with one job (fewer than
    the 24 asked for) and [hasMore] true leaves [hasMore] true, and the
    next scroll issues a request for page 3. *)
Lemma C8_short_page_counterexample :
  ~ (forall (w : World) (before after : list Request) (q : Request)
            (r : JobsResponse.t),
       reachable w -> pending w = (before ++ q :: after)%list ->
       (Z.of_nat (List.length (JobsResponse.jobs r)) < pageSize q)%Z \/
         JobsResponse.hasMore r = false ->
       hasMore (settle q (Fulfilled r) (state w)) = false).
Proof.
  intros H.
  pose (w := perform ScrollNearEnd (mount plainProps someRouter)).
  assert (Hr : reachable w).
  { eapply reachable_step; [apply reachable_mount | apply step_perform]. }
  specialize (H w [] []
                (mkRequest ByLoadMore (JobFilters.mk "" "" "newest" noSidebarFilters) 2 24)
                (JobsResponse.mk [job2] 2 true 30) Hr eq_refl).
  assert (Hlt : (Z.of_nat (List.length [job2]) < 24)%Z) by (simpl; lia).
  specialize (H (or_introl Hlt)). vm_compute in H. discriminate H.
Qed.

Lemma C8_short_page_then_next_page :
  pending (run [Do ScrollNearEnd;
                Settle 0 (Fulfilled (JobsResponse.mk [job2] 2 true 30));
                Do ScrollNearEnd] (mount plainProps someRouter)) =
  [mkRequest ByLoadMore (JobFilters.mk "" "" "newest" noSidebarFilters) 3 24].
Proof. reflexivity. Qed.

(** C8, amended: whenever a [getJobs] response signals no more pages
    ([hasMore] false), or a [loadMore] response carries no job, the state's
    [hasMore] becomes false; and in a state whose [hasMore] is false
    [loadMoreJobs] issues no request and changes nothing.  The number of
    jobs of a non-empty response is not compared with the page size. *)
Theorem C8_hasMore_follows_response (q : Request) (r : JobsResponse.t) (s : State) :
  (JobsResponse.hasMore r = false -> hasMore (settle q (Fulfilled r) s) = false) /\
  (caller q = ByLoadMore -> JobsResponse.jobs r = [] ->
   hasMore (settle q (Fulfilled r) s) = false) /\
  (JobsResponse.jobs r <> [] ->
   hasMore (settle q (Fulfilled r) s) = JobsResponse.hasMore r) /\
  (hasMore s = false -> loadMoreJobs s = (s, None)).
Proof.
  unfold settle, loadMoreFulfilled, searchFulfilled. repeat split.
  - intros Hr. destruct (caller q); simpl; [|exact Hr].
    destruct (0 <? List.length (JobsResponse.jobs r))%nat; simpl; [exact Hr | reflexivity].
  - intros -> ->. reflexivity.
  - intros Hne. destruct (caller q); simpl; [|reflexivity].
    destruct (JobsResponse.jobs r); [congruence | reflexivity].
  - intros Hh. unfold loadMoreJobs. rewrite Hh. simpl. now rewrite orb_true_r.
Qed.

Lemma C8_hasMore_follows_response_witness :
  let w := perform ScrollNearEnd (mount plainProps someRouter) in
  let q := mkRequest ByLoadMore (JobFilters.mk "" "" "newest" noSidebarFilters) 2 24 in
  let s' := settle q (Fulfilled (JobsResponse.mk [job2] 2 false 2)) (state w) in
  pending w = [q] /\ hasMore s' = false /\ loadMoreJobs s' = (s', None).
Proof.
  cbv zeta. split; [reflexivity|].
  pose proof (C8_hasMore_follows_response
    (mkRequest ByLoadMore (JobFilters.mk "" "" "newest" noSidebarFilters) 2 24)
    (JobsResponse.mk [job2] 2 false 2)
    (state (perform ScrollNearEnd (mount plainProps someRouter)))) as (H1 & _).
  pose proof (C8_hasMore_follows_response
    (mkRequest ByLoadMore (JobFilters.mk "" "" "newest" noSidebarFilters) 2 24)
    (JobsResponse.mk [job2] 2 false 2)
    (settle (mkRequest ByLoadMore (JobFilters.mk "" "" "newest" noSidebarFilters) 2 24)
       (Fulfilled (JobsResponse.mk [job2] 2 false 2))
       (state (perform ScrollNearEnd (mount plainProps someRouter))))) as (_ & _ & _ & H4).
  split; [exact (H1 eq_refl) | exact (H4 (H1 eq_refl))].
Defined.

(** ** C9: the URL and the request of a search *)

Lemma searchUrl_shape (s : State) :
  searchUrl s =
  searchPath ++ "?" ++
    match Str.truthy (keyword s), Str.truthy (selectedProvince s) with
    | false, false => ""
    | false, true => "location=" ++ URLSearchParams.encode (selectedProvince s)
    | true, false => "search=" ++ URLSearchParams.encode (keyword s)
    | true, true =>
        "search=" ++ URLSearchParams.encode (keyword s) ++
        "&location=" ++ URLSearchParams.encode (selectedProvince s)
    end.
Proof.
  unfold searchUrl, searchParamsOf.
  destruct (Str.truthy (keyword s)), (Str.truthy (selectedProvince s)); reflexivity.
Qed.

(** C9: a search with keyword "backend developer" and province
    "DKI Jakarta" replaces the current history entry, shallowly, by
    [/lowongan-kerja/?search=backend+developer&location=DKI+Jakarta] and
    calls [getJobs] with page 1 and page size 24; an empty keyword or
    province does not appear in the query string. *)
Theorem C9_search_url_and_request (s : State) :
  searching s = false ->
  (keyword s = "backend developer" -> selectedProvince s = "DKI Jakarta" ->
   Router.location (router (fst (handleFilterSearch s))) =
     "/lowongan-kerja/?search=backend+developer&location=DKI+Jakarta") /\
  Router.location (router (fst (handleFilterSearch s))) = searchUrl s /\
  Router.earlier (router (fst (handleFilterSearch s))) = Router.earlier (router s) /\
  Router.shallow (router (fst (handleFilterSearch s))) = true /\
  snd (handleFilterSearch s) = Some (mkRequest BySearch (currentJobFilters s) 1 24) /\
  (keyword s = "" -> selectedProvince s = "" ->
   searchUrl s = "/lowongan-kerja/?") /\
  (keyword s = "" -> selectedProvince s <> "" ->
   searchUrl s =
     "/lowongan-kerja/?location=" ++ URLSearchParams.encode (selectedProvince s)) /\
  (keyword s <> "" -> selectedProvince s = "" ->
   searchUrl s = "/lowongan-kerja/?search=" ++ URLSearchParams.encode (keyword s)).
Proof.
  intros Hs.
  destruct (handleFilterSearch_cases s)
    as [[E _] | [_ (s' & -> & _ & _ & _ & _ & _ & _ & _ & _ & _ & Er)]];
    [congruence|].
  cbn [fst snd]. rewrite Er. cbn [Router.replace Router.location Router.earlier
    Router.shallow]. rewrite searchUrl_shape.
  split; [|split; [|split; [|split; [|split; [|split; [|split]]]]]];
    try reflexivity.
  - now intros -> ->.
  - now intros -> ->.
  - intros -> Hp. apply truthy_true_iff in Hp. now rewrite Hp.
  - intros Hk ->. apply truthy_true_iff in Hk. now rewrite Hk.
Qed.

Lemma C9_search_url_and_request_witness :
  let s := setSelectedProvince "DKI Jakarta"
             (setKeyword "backend developer" (state (mount plainProps someRouter))) in
  searching s = false /\ keyword s = "backend developer" /\
  selectedProvince s = "DKI Jakarta" /\
  Router.location (router (fst (handleFilterSearch s))) =
    "/lowongan-kerja/?search=backend+developer&location=DKI+Jakarta" /\
  snd (handleFilterSearch s) =
    Some (mkRequest BySearch
            (JobFilters.mk "backend developer" "DKI Jakarta" "newest" noSidebarFilters)
            1 24).
Proof.
  cbv zeta. split; [reflexivity|]. split; [reflexivity|]. split; [reflexivity|].
  destruct (C9_search_url_and_request
              (setSelectedProvince "DKI Jakarta"
                 (setKeyword "backend developer" (state (mount plainProps someRouter))))
              eq_refl) as (H1 & _ & _ & _ & H5 & _).
  split; [exact (H1 eq_refl eq_refl) | exact H5].
Defined.

(** ** C10: an empty page *)

Lemma paginationStep_step (w w' : World) : paginationStep w w' -> step w w'.
Proof.
  destruct 1 as [a w _ | w before after q o Hp _];
    [apply step_perform | now apply step_settle].
Qed.

Lemma start_without_search (h : Starter) (s : State) (l : list Request) :
  countSearch (pending (issue l (start h s))) = countSearch l ->
  hasMore s = false ->
  hasMore (fst (start h s)) = false /\
  loadingMore (fst (start h s)) = loadingMore s.
Proof.
  intros Hc Hh.
  assert (Hsearch : forall s0,
    countSearch (pending (issue l (handleFilterSearch s0))) = countSearch l ->
    fst (handleFilterSearch s0) = s0).
  { intros s0.
    destruct (handleFilterSearch_cases s0) as [[_ ->] | [_ (s' & -> & _)]];
      simpl; [reflexivity|].
    rewrite countSearch_app. simpl. lia. }
  destruct h; simpl in *.
  - unfold filtersEffect in *. destruct (filtersChanged _ _ && isSome _).
    + rewrite (Hsearch _ Hc). now split.
    + now split.
  - rewrite (Hsearch _ Hc). now split.
  - unfold loadMoreJobs. rewrite Hh. simpl. rewrite orb_true_r. now split.
Qed.

Lemma paginationRun_stays_ended (w w' : World) :
  reachable w -> hasMore (state w) = false -> loadingMore (state w) = false ->
  paginationRun w w' ->
  reachable w' /\ hasMore (state w') = false /\ loadingMore (state w') = false.
Proof.
  intros Hr Hh Hl. induction 1 as [|w w' w'' _ IH Hstep]; [auto|].
  specialize (IH Hr Hh Hl) as (Ir & Ih & Il).
  split; [eapply reachable_step; [exact Ir | now apply paginationStep_step]|].
  destruct Hstep as [a w' Hc | w' before after q o Hp Hq].
  - rewrite perform_decompose in *. rewrite state_issue.
    destruct (handlerOf_frame a (state w')) as (F1 & _ & _ & _ & _ & F6).
    destruct (start_without_search _ _ _ Hc) as [E1 E2]; [congruence|].
    rewrite E1, E2. split; congruence.
  - exfalso. destruct (reachable_flagsMatch w' Ir) as [Hc _].
    rewrite Hp, countLoadMore_middle, Il in Hc.
    unfold isLoadMore in Hc. rewrite Hq in Hc. lia.
Qed.

(** C10, as stated, fails in its last part: after the empty page the
    search button (or Enter) runs [handleFilterSearch] again for the very
    same filter set, which sets [hasMore] back to true; the empty page did
    not end pagination for that filter set for good. *)
Lemma C10_search_again_counterexample :
  ~ (forall (w w' : World) (before after : list Request) (q : Request)
            (r : JobsResponse.t),
       reachable w -> pending w = (before ++ q :: after)%list ->
       caller q = ByLoadMore -> JobsResponse.jobs r = [] ->
       sameFiltersRun
         (mkWorld (settle q (Fulfilled r) (state w)) (before ++ after)%list) w' ->
       hasMore (state w') = false).
Proof.
  intros H.
  pose (w := perform ScrollNearEnd (mount plainProps someRouter)).
  pose (q := mkRequest ByLoadMore (JobFilters.mk "" "" "newest" noSidebarFilters) 2 24).
  pose (r := JobsResponse.mk [] 2 true 30).
  assert (Hr : reachable w).
  { eapply reachable_step; [apply reachable_mount | apply step_perform]. }
  specialize (H w (perform ClickSearch (mkWorld (settle q (Fulfilled r) (state w)) []))
                [] [] q r Hr eq_refl eq_refl eq_refl).
  assert (Hrun : sameFiltersRun (mkWorld (settle q (Fulfilled r) (state w)) [])
                   (perform ClickSearch (mkWorld (settle q (Fulfilled r) (state w)) []))).
  { eapply sameFiltersRun_step;
      [apply sameFiltersRun_refl | apply step_perform | vm_compute; reflexivity]. }
  specialize (H Hrun). vm_compute in H. discriminate H.
Qed.

(** After the empty page and the repeated search, the next scroll asks
    for page 2 of the same filter set once more. *)
Lemma C10_search_again_then_next_page :
  pending (run [Do ScrollNearEnd;
                Settle 0 (Fulfilled (JobsResponse.mk [] 2 true 30));
                Do ClickSearch;
                Settle 0 (Fulfilled (JobsResponse.mk [job1] 1 true 30));
                Do ScrollNearEnd] (mount plainProps someRouter)) =
  [mkRequest ByLoadMore (JobFilters.mk "" "" "newest" noSidebarFilters) 2 24].
Proof. vm_compute. reflexivity. Qed.

(** C10, amended: a [loadMore] response with an empty [jobs] array sets
    [hasMore] to false and leaves the list and the page number alone,
    whatever the response says in its own [hasMore]; from then on
    [loadMoreJobs] does nothing, and [hasMore] stays false for as long as
    no search is started or settled.  A search, also one for the same
    filter set, starts pagination again. *)
Theorem C10_empty_page_ends_pagination :
  (forall (q : Request) (r : JobsResponse.t) (s : State),
     caller q = ByLoadMore -> JobsResponse.jobs r = [] ->
     hasMore (settle q (Fulfilled r) s) = false /\
     jobs (settle q (Fulfilled r) s) = jobs s /\
     currentPage (settle q (Fulfilled r) s) = currentPage s /\
     loadMoreJobs (settle q (Fulfilled r) s) = (settle q (Fulfilled r) s, None)) /\
  (forall (w w' : World) (before after : list Request) (q : Request)
          (r : JobsResponse.t),
     reachable w -> pending w = (before ++ q :: after)%list ->
     caller q = ByLoadMore -> JobsResponse.jobs r = [] ->
     paginationRun (mkWorld (settle q (Fulfilled r) (state w)) (before ++ after)%list) w' ->
     hasMore (state w') = false /\ countLoadMore (pending w') = 0%nat).
Proof.
  assert (Hfirst : forall (q : Request) (r : JobsResponse.t) (s : State),
     caller q = ByLoadMore -> JobsResponse.jobs r = [] ->
     hasMore (settle q (Fulfilled r) s) = false /\
     jobs (settle q (Fulfilled r) s) = jobs s /\
     currentPage (settle q (Fulfilled r) s) = currentPage s /\
     loadingMore (settle q (Fulfilled r) s) = false).
  { intros q r s Hq Hj. unfold settle, loadMoreFulfilled. rewrite Hq, Hj.
    now repeat split. }
  split.
  - intros q r s Hq Hj. destruct (Hfirst q r s Hq Hj) as (H1 & H2 & H3 & _).
    repeat split; try assumption.
    unfold loadMoreJobs. rewrite H1. simpl. now rewrite orb_true_r.
  - intros w w' before after q r Hr Hp Hq Hj Hrun.
    destruct (Hfirst q r (state w) Hq Hj) as (H1 & _ & _ & H4).
    assert (Hr0 : reachable (mkWorld (settle q (Fulfilled r) (state w))
                               (before ++ after)%list)).
    { eapply reachable_step; [exact Hr | now apply step_settle]. }
    destruct (paginationRun_stays_ended _ _ Hr0 H1 H4 Hrun) as (Hr' & Hh & Hl).
    split; [exact Hh|].
    destruct (reachable_flagsMatch w' Hr') as [Hc _]. now rewrite Hc, Hl.
Qed.

Lemma C10_empty_page_ends_pagination_witness :
  let w := perform ScrollNearEnd (mount plainProps someRouter) in
  let q := mkRequest ByLoadMore (JobFilters.mk "" "" "newest" noSidebarFilters) 2 24 in
  let s' := settle q (Fulfilled (JobsResponse.mk [] 2 true 30)) (state w) in
  pending w = [q] /\ hasMore s' = false /\ jobs s' = [job1] /\
  currentPage s' = 1%Z /\
  pending (perform ScrollNearEnd (mkWorld s' [])) = [].
Proof.
  cbv zeta. split; [reflexivity|].
  destruct (proj1 C10_empty_page_ends_pagination
              (mkRequest ByLoadMore (JobFilters.mk "" "" "newest" noSidebarFilters) 2 24)
              (JobsResponse.mk [] 2 true 30)
              (state (perform ScrollNearEnd (mount plainProps someRouter)))
              eq_refl eq_refl) as (H1 & H2 & H3 & H4).
  split; [exact H1|]. split; [exact H2|]. split; [exact H3|].
  exact (eq_trans (f_equal (fun r => pending (issue [] r)) H4) eq_refl).
Defined.

(** * Further properties of the pages *)

(** ** Runs *)

Lemma steps_reachable (w w' : World) : reachable w -> steps w w' -> reachable w'.
Proof.
  intros Hr. induction 1 as [|w w' w'' _ IH Hstep]; [exact Hr|].
  eapply reachable_step; [exact (IH Hr) | exact Hstep].
Qed.

Lemma steps_run (es : list Event) (w : World) : steps w (run es w).
Proof.
  revert w. induction es as [|e es IH] using rev_ind; intros w; [apply steps_refl|].
  unfold run in *. rewrite fold_left_app. simpl.
  destruct e as [a | i o]; simpl.
  - eapply steps_step; [apply IH | apply step_perform].
  - destruct (nth_error _ i) as [q|] eqn:E; [|apply IH].
    destruct (removeNth_split i _ q E) as (before & after & Hp & ->).
    eapply steps_step; [apply IH | now apply step_settle].
Qed.

(** What a starter can be, and what the two handlers behind it leave
    alone. *)
Lemma start_shape (h : Starter) (s : State) :
  start h s = (s, None) \/
  (h <> ViaLoadMore /\
   (start h s = handleFilterSearch s \/
    start h s = handleFilterSearch (setFiltersRef (currentFilters s) s))) \/
  (h = ViaLoadMore /\ start h s = loadMoreJobs s).
Proof.
  destruct h; simpl.
  - unfold filtersEffect. destruct (filtersChanged _ _ && isSome _).
    + right. left. split; [discriminate | now right].
    + now left.
  - right. left. split; [discriminate | now left].
  - right. now right.
Qed.

Lemma handleFilterSearch_touches (s : State) :
  Router.earlier (router (fst (handleFilterSearch s))) = Router.earlier (router s) /\
  totalJobs (fst (handleFilterSearch s)) = totalJobs s /\
  (searching (fst (handleFilterSearch s)) = true ->
   searching s = true \/ error (fst (handleFilterSearch s)) = None) /\
  (searching s = true -> fst (handleFilterSearch s) = s).
Proof.
  unfold handleFilterSearch. destruct (searching s); simpl; repeat split;
    auto; intros; congruence.
Qed.

Lemma loadMoreJobs_touches (s : State) :
  router (fst (loadMoreJobs s)) = router s /\
  totalJobs (fst (loadMoreJobs s)) = totalJobs s /\
  error (fst (loadMoreJobs s)) = error s /\
  searching (fst (loadMoreJobs s)) = searching s /\
  jobs (fst (loadMoreJobs s)) = jobs s.
Proof.
  destruct (loadMoreJobs_cases s) as [[_ ->] | (_ & _ & _ & ->)]; now repeat split.
Qed.

Lemma handlerOf_touches (a : Action) (s : State) :
  Router.earlier (router (handlerOf a s)) = Router.earlier (router s) /\
  totalJobs (handlerOf a s) = totalJobs s /\
  error (handlerOf a s) = error s /\
  currentPage (handlerOf a s) = currentPage s.
Proof.
  destruct a as [v|v|f|v| | |t v|]; simpl; try now repeat split.
  destruct t as [| |k]; simpl; try now repeat split.
  destruct v as [v|]; [|now repeat split].
  destruct (Str.truthy v); now repeat split.
Qed.

Lemma settle_touches (q : Request) (o : Outcome) (s : State) :
  router (settle q o s) = router s /\
  (isSearch q = false -> error (settle q o s) = error s /\
                         totalJobs (settle q o s) = totalJobs s).
Proof.
  unfold settle, isSearch, loadMoreFulfilled.
  destruct (caller q), o as [r|]; simpl;
    try destruct (0 <? List.length (JobsResponse.jobs r))%nat;
    simpl; repeat split; congruence.
Qed.

(** ** X1: one search at a time *)

Lemma start_adds_search (h : Starter) (s : State) (l : list Request) :
  countSearch (pending (issue l (start h s))) <> countSearch l ->
  h <> ViaLoadMore /\ searching s = false.
Proof.
  assert (Hsearch : forall s0,
    countSearch (pending (issue l (handleFilterSearch s0))) <> countSearch l ->
    searching s0 = false).
  { intros s0.
    destruct (handleFilterSearch_cases s0) as [[_ ->] | [E _]]; simpl; congruence. }
  destruct (start_shape h s) as [E | [[Hh [E | E]] | [Hh E]]]; rewrite E.
  - simpl. congruence.
  - intros H. split; [exact Hh | now apply Hsearch].
  - intros H. split; [exact Hh | exact (Hsearch _ H)].
  - destruct (loadMoreJobs_cases s) as [[_ ->] | (_ & _ & _ & ->)]; simpl.
    + congruence.
    + rewrite countSearch_app. simpl. lia.
Qed.

(** X1: in every reachable state at most one search is in flight,
    [searching] is true exactly while one is, and an action adds a search
    request only when none is pending.  A pending [loadMore] does not hold
    a search back. *)
Theorem X1_single_search_in_flight (w : World) :
  reachable w ->
  (countSearch (pending w) <= 1)%nat /\
  (searching (state w) = true <-> countSearch (pending w) = 1%nat) /\
  forall a : Action,
    countSearch (pending (perform a w)) <> countSearch (pending w) ->
    a <> ScrollNearEnd /\ searching (state w) = false /\
    countSearch (pending w) = 0%nat.
Proof.
  intros Hr. destruct (reachable_flagsMatch w Hr) as [_ Hs].
  split; [|split; [split|]].
  - rewrite Hs. destruct (searching (state w)); lia.
  - intros E. now rewrite Hs, E.
  - rewrite Hs. destruct (searching (state w)); [reflexivity | discriminate].
  - intros a H. rewrite perform_decompose in H.
    apply start_adds_search in H as [Hh E].
    destruct (handlerOf_frame a (state w)) as (_ & F & _).
    rewrite F in E. rewrite Hs, E. repeat split.
    intros ->. now apply Hh.
Qed.

Lemma X1_single_search_in_flight_witness :
  let w := run [Do ScrollNearEnd; Do (TypeKeyword "a")] (mount plainProps someRouter) in
  reachable w /\ countLoadMore (pending w) = 1%nat /\
  countSearch (pending w) = 1%nat /\ (countSearch (pending w) <= 1)%nat /\
  pending (perform (TypeKeyword "ab") w) = pending w.
Proof.
  cbv zeta.
  assert (Hr : reachable (run [Do ScrollNearEnd; Do (TypeKeyword "a")]
                            (mount plainProps someRouter)))
    by apply reachable_run, reachable_mount.
  split; [exact Hr|]. split; [reflexivity|]. split; [reflexivity|].
  split; [exact (proj1 (X1_single_search_in_flight _ Hr)) | vm_compute; reflexivity].
Defined.

(** ** X2, X3: what a run never changes *)

Lemma start_earlier (h : Starter) (s : State) :
  Router.earlier (router (fst (start h s))) = Router.earlier (router s).
Proof.
  destruct (start_shape h s) as [E | [[_ [E | E]] | [_ E]]]; rewrite E.
  - reflexivity.
  - apply handleFilterSearch_touches.
  - apply (handleFilterSearch_touches (setFiltersRef (currentFilters s) s)).
  - now destruct (loadMoreJobs_touches s) as [-> _].
Qed.

Lemma step_keeps (w w' : World) :
  step w w' ->
  Router.earlier (router (state w')) = Router.earlier (router (state w)) /\
  filterData (state w') = filterData (state w).
Proof.
  destruct 1 as [a w | w before after q o Hp].
  - rewrite perform_decompose, state_issue.
    rewrite start_earlier. destruct (start_frame (starterOf a) (handlerOf a (state w))) as [_ ->].
    destruct (handlerOf_touches a (state w)) as [-> _].
    now destruct (handlerOf_frame a (state w)) as (_ & _ & -> & _).
  - simpl. destruct (settle_touches q o (state w)) as [-> _].
    now destruct (settle_flags q o (state w)) as (_ & _ & -> & _).
Qed.

(** X2: the job-search page only ever replaces the current history
    entry: along every run from mounting, the entries behind the current
    one are those the router had when the page was mounted. *)
Theorem X2_history_never_grows (props : Props) (r : Router.t) (w : World) :
  steps (mount props r) w ->
  Router.earlier (router (state w)) = Router.earlier r.
Proof.
  remember (mount props r) as w0 eqn:E0.
  induction 1 as [w0 | w0 w' w'' Hrun IH Hstep]; subst.
  - unfold mount. rewrite state_issue. apply (start_earlier ViaEffect).
  - destruct (step_keeps _ _ Hstep) as [-> _]. now apply IH.
Qed.

Lemma X2_history_never_grows_witness :
  let w := run [Do (TypeKeyword "a"); Settle 0 Rejected; Do ClickClearAll]
               (mount plainProps someRouter) in
  Router.location (router (state w)) = "/lowongan-kerja/?" /\
  Router.earlier (router (state w)) = ["/"].
Proof.
  cbv zeta. split; [vm_compute; reflexivity|].
  exact (X2_history_never_grows plainProps someRouter _ (steps_run _ _)).
Defined.

Lemma steps_filterData (props : Props) (r : Router.t) (w : World) :
  steps (mount props r) w -> filterData (state w) = initialFilterData props.
Proof.
  remember (mount props r) as w0 eqn:E0.
  induction 1 as [w0 | w0 w' w'' Hrun IH Hstep]; subst.
  - unfold mount. rewrite state_issue.
    exact (proj2 (start_frame ViaEffect (initialState props r))).
  - destruct (step_keeps _ _ Hstep) as [_ ->]. now apply IH.
Qed.

(** X3: a page mounted without filter data ([initialFilterData] null)
    never gets any, and then no change of keyword, province, facets or
    sort order, and no chip or "clear all" click, issues a request: the
    handler runs and nothing is fetched. *)
Theorem X3_no_filter_data_no_search (props : Props) (r : Router.t) (w : World)
  (a : Action) :
  initialFilterData props = None ->
  steps (mount props r) w ->
  starterOf a = ViaEffect ->
  perform a w = mkWorld (handlerOf a (state w)) (pending w).
Proof.
  intros Hn Hsteps Ha. rewrite perform_decompose, Ha. simpl.
  unfold filtersEffect.
  destruct (handlerOf_frame a (state w)) as (_ & _ & -> & _).
  rewrite (steps_filterData _ _ _ Hsteps), Hn. simpl.
  now rewrite andb_false_r.
Qed.

Lemma X3_no_filter_data_no_search_witness :
  let props := mkProps [job1] None (mkSearchParams (Some "a") None None) 1 in
  let w := mount props someRouter in
  pending w = [] /\ jobs (state w) = [job1] /\
  pending (perform (TypeKeyword "ab") w) = [] /\
  jobs (state (perform (TypeKeyword "ab") w)) = [job1].
Proof.
  cbv zeta. split; [reflexivity|]. split; [reflexivity|].
  rewrite (X3_no_filter_data_no_search
             (mkProps [job1] None (mkSearchParams (Some "a") None None) 1)
             someRouter _ (TypeKeyword "ab") eq_refl (steps_refl _) eq_refl).
  split; reflexivity.
Defined.

(** ** X4: no error while a search is in flight *)

Lemma start_no_error (h : Starter) (s : State) :
  (searching s = true -> error s = None) ->
  searching (fst (start h s)) = true -> error (fst (start h s)) = None.
Proof.
  intros Hs.
  assert (Hsearch : forall s0, searching s0 = searching s -> error s0 = error s ->
    searching (fst (handleFilterSearch s0)) = true ->
    error (fst (handleFilterSearch s0)) = None).
  { intros s0 E1 E2 H.
    destruct (handleFilterSearch_touches s0) as (_ & _ & H3 & H4).
    destruct (H3 H) as [E | E]; [|exact E].
    rewrite (H4 E), E2. apply Hs. congruence. }
  destruct (start_shape h s) as [E | [[_ [E | E]] | [_ E]]]; rewrite E.
  - exact Hs.
  - now apply Hsearch.
  - now apply Hsearch.
  - destruct (loadMoreJobs_touches s) as (_ & _ & -> & -> & _). exact Hs.
Qed.

(** X4: in every reachable state in which a search is in flight the error
    message is null: starting a search clears it and only the rejection of
    that search sets it. *)
Theorem X4_no_error_while_searching (w : World) :
  reachable w -> searching (state w) = true -> error (state w) = None.
Proof.
  induction 1 as [props r | w w' _ IH Hstep].
  - unfold mount. rewrite state_issue.
    apply (start_no_error ViaEffect (initialState props r)). reflexivity.
  - destruct Hstep as [a w | w before after q o Hp].
    + rewrite perform_decompose, state_issue. apply start_no_error.
      destruct (handlerOf_touches a (state w)) as (_ & _ & -> & _).
      now destruct (handlerOf_frame a (state w)) as (_ & -> & _).
    + simpl. destruct (settle_flags q o (state w)) as (_ & -> & _).
      destruct (isSearch q) eqn:Eq; [discriminate|].
      now destruct (settle_touches q o (state w)) as [_ [-> _]].
Qed.

Lemma X4_no_error_while_searching_witness :
  let w := run [Do (TypeKeyword "a"); Settle 0 Rejected] (mount plainProps someRouter) in
  let w' := perform ClickSearch w in
  error (state w) = Some searchErrorMessage /\
  searching (state w') = true /\ error (state w') = None.
Proof.
  cbv zeta. split; [vm_compute; reflexivity|].
  assert (Hs : searching (state (perform ClickSearch
                 (run [Do (TypeKeyword "a"); Settle 0 Rejected]
                    (mount plainProps someRouter)))) = true)
    by (vm_compute; reflexivity).
  split; [exact Hs|].
  refine (X4_no_error_while_searching _ _ Hs).
  eapply reachable_step; [apply reachable_run, reachable_mount | apply step_perform].
Defined.

(** ** X5: what mounting does *)

Lemma initial_filters_changed (props : Props) (r : Router.t) :
  filtersChanged (currentFilters (initialState props r))
                 (filtersRef (initialState props r)) = false <->
  keyword (initialState props r) = "" /\
  selectedProvince (initialState props r) = "".
Proof.
  rewrite filtersChanged_false. unfold currentFilters. simpl. split.
  - intros H. injection H as -> ->. now split.
  - intros [-> ->]. reflexivity.
Qed.

(** X5: mounting starts a search exactly when filter data is there and
    the initial keyword or province is not empty; the jobs of the props
    are then dropped and the first page is fetched again.  Otherwise (an
    initial category alone included) the page shows the jobs of the props
    and fetches nothing. *)
Theorem X5_mount_search (props : Props) (r : Router.t) :
  (initialFilterData props <> None ->
   keyword (initialState props r) <> "" \/
     selectedProvince (initialState props r) <> "" ->
   pending (mount props r) =
     [mkRequest BySearch (currentJobFilters (initialState props r)) 1 24] /\
   jobs (state (mount props r)) = [] /\
   searching (state (mount props r)) = true /\
   Router.location (router (state (mount props r))) =
     searchUrl (initialState props r)) /\
  (initialFilterData props = None \/
     (keyword (initialState props r) = "" /\
      selectedProvince (initialState props r) = "") ->
   mount props r = mkWorld (initialState props r) []).
Proof.
  unfold mount, filtersEffect. split.
  - intros Hfd Hne.
    destruct (filtersChanged _ _) eqn:Ec.
    + change (filterData (initialState props r)) with (initialFilterData props).
      destruct (initialFilterData props); [|congruence]. simpl. now repeat split.
    + apply initial_filters_changed in Ec as [E1 E2]. destruct Hne; congruence.
  - intros [Hn | Hk].
    + change (filterData (initialState props r)) with (initialFilterData props).
      rewrite Hn. simpl. now rewrite andb_false_r.
    + apply initial_filters_changed in Hk. now rewrite Hk.
Qed.

Lemma X5_mount_search_witness :
  let withKeyword := mkProps [job1] (Some someFilterData)
                       (mkSearchParams (Some "kasir") (Some "") (Some "")) 1 in
  let withCategory := mkProps [job1] (Some someFilterData)
                        (mkSearchParams (Some "") (Some "") (Some "Pendidikan")) 1 in
  (pending (mount withKeyword someRouter) =
     [mkRequest BySearch (JobFilters.mk "kasir" "" "newest" noSidebarFilters) 1 24] /\
   jobs (state (mount withKeyword someRouter)) = []) /\
  (pending (mount withCategory someRouter) = [] /\
   jobs (state (mount withCategory someRouter)) = [job1] /\
   categories (sidebarFilters (state (mount withCategory someRouter))) = ["Pendidikan"]).
Proof.
  cbv zeta. split.
  - destruct (proj1 (X5_mount_search
                       (mkProps [job1] (Some someFilterData)
                          (mkSearchParams (Some "kasir") (Some "") (Some "")) 1)
                       someRouter))
      as (H1 & H2 & _); [discriminate | left; discriminate |].
    split; [exact H1 | exact H2].
  - rewrite (proj2 (X5_mount_search
                      (mkProps [job1] (Some someFilterData)
                         (mkSearchParams (Some "") (Some "") (Some "Pendidikan")) 1)
                      someRouter) (or_intror (conj eq_refl eq_refl))).
    repeat split.
Defined.

(** ** X6: removing one facet value *)

Lemma getFacet_setFacet (k k' : FacetName) (v : list string) (f : SidebarFilters) :
  getFacet k' (setFacet k v f) = if FacetName_eqb k k' then v else getFacet k' f.
Proof. destruct k, k'; reflexivity. Qed.

Lemma FacetName_eqb_eq (k k' : FacetName) : FacetName_eqb k k' = true <-> k = k'.
Proof. destruct k, k'; simpl; split; congruence. Qed.

(** X6: the chip of facet [k] with a non-empty value [v] removes every
    occurrence of [v] from that facet, keeps the other values of the facet
    in their order, and leaves every other facet, the keyword and the
    province alone.  A chip without a value, or with the empty string,
    changes nothing. *)
Theorem X6_removeFilter_facet (k : FacetName) (v : string) (s : State) :
  (v <> "" ->
   let s' := removeFilter (OfFacet k) (Some v) s in
   ~ In v (getFacet k (sidebarFilters s')) /\
   (forall x, x <> v ->
      count_occ string_dec (getFacet k (sidebarFilters s')) x =
      count_occ string_dec (getFacet k (sidebarFilters s)) x) /\
   (forall k', k' <> k ->
      getFacet k' (sidebarFilters s') = getFacet k' (sidebarFilters s)) /\
   keyword s' = keyword s /\ selectedProvince s' = selectedProvince s) /\
  removeFilter (OfFacet k) (Some "") s = s /\
  removeFilter (OfFacet k) None s = s.
Proof.
  split; [|now split].
  intros Hv. apply truthy_true_iff in Hv. cbv zeta. unfold removeFilter.
  rewrite Hv. cbn [sidebarFilters setSidebarFilters keyword selectedProvince].
  repeat split.
  - rewrite getFacet_setFacet, (proj2 (FacetName_eqb_eq k k) eq_refl).
    intros Hin. apply filter_In in Hin as [_ Hin].
    now rewrite String.eqb_refl in Hin.
  - intros x Hx. rewrite getFacet_setFacet, (proj2 (FacetName_eqb_eq k k) eq_refl).
    induction (getFacet k (sidebarFilters s)) as [|y l IH]; [reflexivity|].
    simpl. destruct (String.eqb_spec y v) as [-> | Hy]; simpl.
    + destruct (string_dec v x); [congruence | exact IH].
    + destruct (string_dec y x); now rewrite IH.
  - intros k' Hk. rewrite getFacet_setFacet.
    destruct (FacetName_eqb k k') eqn:E; [|reflexivity].
    apply FacetName_eqb_eq in E. congruence.
Qed.

Lemma X6_removeFilter_facet_witness :
  let s := setSidebarFilters
             (setFacet JobTypes ["Full Time"] (withCities ["Bandung"; "Bogor"; "Bandung"]))
             (state (mount plainProps someRouter)) in
  let s' := removeFilter (OfFacet Cities) (Some "Bandung") s in
  cities (sidebarFilters s') = ["Bogor"] /\ ~ In "Bandung" (cities (sidebarFilters s')) /\
  jobTypes (sidebarFilters s') = ["Full Time"].
Proof.
  cbv zeta. split; [reflexivity|].
  assert (Hv : "Bandung" <> "") by discriminate.
  destruct (proj1 (X6_removeFilter_facet Cities "Bandung"
              (setSidebarFilters
                 (setFacet JobTypes ["Full Time"] (withCities ["Bandung"; "Bogor"; "Bandung"]))
                 (state (mount plainProps someRouter)))) Hv) as (H1 & _ & H3 & _).
  split; [exact H1|]. apply (H3 JobTypes). discriminate.
Defined.

(** ** X7: the number of active filters *)

Lemma getActiveFiltersCount_sum (s : State) :
  getActiveFiltersCount s =
  ((if Str.truthy (keyword s) then 1 else 0) +
   (if Str.truthy (selectedProvince s) then 1 else 0) +
   facetTotal (sidebarFilters s))%nat.
Proof.
  unfold getActiveFiltersCount, facetValues, facetTotal. simpl.
  destruct (Str.truthy (keyword s)), (Str.truthy (selectedProvince s)); lia.
Qed.

Lemma facetTotal_setFacet (k : FacetName) (v : list string) (f : SidebarFilters) :
  (facetTotal (setFacet k v f) + List.length (getFacet k f) =
   facetTotal f + List.length v)%nat.
Proof. destruct k; unfold facetTotal; simpl; lia. Qed.

Lemma filter_length_lt {A : Type} (p : A -> bool) (l : list A) (x : A) :
  In x l -> p x = false -> (List.length (filter p l) < List.length l)%nat.
Proof.
  induction l as [|y l IH]; simpl; [tauto|].
  intros [-> | Hin] Hp.
  - rewrite Hp. pose proof (filter_length_le p l). lia.
  - specialize (IH Hin Hp). destruct (p y); simpl; lia.
Qed.

Lemma count_removeKeyword (v : option string) (s : State) :
  (getActiveFiltersCount (removeFilter OfKeyword v s) +
   (if Str.truthy (keyword s) then 1 else 0) = getActiveFiltersCount s)%nat.
Proof.
  rewrite !getActiveFiltersCount_sum. unfold removeFilter.
  cbn [keyword selectedProvince sidebarFilters setKeyword Str.truthy]. lia.
Qed.

Lemma count_removeProvince (v : option string) (s : State) :
  (getActiveFiltersCount (removeFilter OfProvince v s) +
   (if Str.truthy (selectedProvince s) then 1 else 0) +
   List.length (cities (sidebarFilters s)) = getActiveFiltersCount s)%nat.
Proof.
  rewrite !getActiveFiltersCount_sum. unfold removeFilter.
  cbn [keyword selectedProvince sidebarFilters setSidebarFilters
       setSelectedProvince Str.truthy].
  pose proof (facetTotal_setFacet Cities [] (sidebarFilters s)) as H.
  cbn [getFacet List.length] in H. lia.
Qed.

Lemma count_removeFacet (k : FacetName) (v : option string) (s : State) :
  (getActiveFiltersCount (removeFilter (OfFacet k) v s) <= getActiveFiltersCount s)%nat /\
  (forall x, v = Some x -> x <> "" -> In x (getFacet k (sidebarFilters s)) ->
   (getActiveFiltersCount (removeFilter (OfFacet k) v s) < getActiveFiltersCount s)%nat).
Proof.
  rewrite !getActiveFiltersCount_sum. unfold removeFilter.
  destruct v as [x|]; [|split; [lia | discriminate]].
  destruct (Str.truthy x) eqn:Ex.
  - cbn [keyword selectedProvince sidebarFilters setSidebarFilters].
    pose proof (facetTotal_setFacet k
      (filter (fun item => negb (item =? x)%string) (getFacet k (sidebarFilters s)))
      (sidebarFilters s)) as H.
    pose proof (filter_length_le (fun item => negb (item =? x)%string)
                  (getFacet k (sidebarFilters s))) as Hle.
    split; [lia|]. intros y Hy _ Hin. injection Hy as <-.
    pose proof (filter_length_lt (fun item => negb (item =? x)%string)
                  (getFacet k (sidebarFilters s)) x Hin) as Hlt.
    cbv beta in Hlt. rewrite String.eqb_refl in Hlt. specialize (Hlt eq_refl). lia.
  - split; [lia|]. intros y Hy Hne _. injection Hy as <-.
    apply truthy_true_iff in Hne. congruence.
Qed.

(** X7: the filter counter (which decides whether the chips are shown)
    is zero exactly when keyword and province are empty and no facet value
    is selected; the sort order does not count. *)
Theorem X7_no_active_filters (s : State) :
  getActiveFiltersCount s = 0%nat <->
  keyword s = "" /\ selectedProvince s = "" /\ sidebarFilters s = noSidebarFilters.
Proof.
  rewrite getActiveFiltersCount_sum. unfold facetTotal. split.
  - intros H.
    destruct (Str.truthy (keyword s)) eqn:Ek; [lia|].
    destruct (Str.truthy (selectedProvince s)) eqn:Ep; [lia|].
    apply truthy_false_iff in Ek, Ep. split; [exact Ek|]. split; [exact Ep|].
    destruct (sidebarFilters s) as [a1 a2 a3 a4 a5 a6 a7]. simpl in H.
    destruct a1, a2, a3, a4, a5, a6, a7; simpl in H; try lia. reflexivity.
  - intros (-> & -> & ->). reflexivity.
Qed.

Lemma X7_no_active_filters_witness :
  let s := setSortBy "oldest" (clearAllFilters
             (setKeyword "kasir" (state (mount plainProps someRouter)))) in
  getActiveFiltersCount (setKeyword "kasir" (state (mount plainProps someRouter))) = 1%nat /\
  sortBy s = "oldest" /\ getActiveFiltersCount s = 0%nat.
Proof.
  cbv zeta. split; [reflexivity|]. split; [reflexivity|].
  apply (proj2 (X7_no_active_filters _)). repeat split.
Defined.

(** X8: a click on a chip never raises the counter, and a click
    on a chip that is shown (the keyword chip with a keyword, the province
    chip with a province, a facet chip whose non-empty value is in the
    facet) lowers it; the province chip also takes the cities off. *)
Theorem X8_chip_lowers_count (t : FilterType) (v : option string) (s : State) :
  (getActiveFiltersCount (removeFilter t v s) <= getActiveFiltersCount s)%nat /\
  (match t, v with
   | OfKeyword, _ => keyword s <> ""
   | OfProvince, _ => selectedProvince s <> ""
   | OfFacet k, Some x => x <> "" /\ In x (getFacet k (sidebarFilters s))
   | OfFacet _, None => False
   end ->
   (getActiveFiltersCount (removeFilter t v s) < getActiveFiltersCount s)%nat) /\
  (selectedProvince s <> "" ->
   (getActiveFiltersCount (removeFilter OfProvince v s) + 1 +
    List.length (cities (sidebarFilters s)) = getActiveFiltersCount s)%nat).
Proof.
  split; [|split].
  - destruct t as [| |k].
    + pose proof (count_removeKeyword v s). lia.
    + pose proof (count_removeProvince v s). lia.
    + pose proof (count_removeFacet k v s) as [H _]. exact H.
  - destruct t as [| |k].
    + intros Hk. apply truthy_true_iff in Hk.
      pose proof (count_removeKeyword v s) as H. rewrite Hk in H. lia.
    + intros Hp. apply truthy_true_iff in Hp.
      pose proof (count_removeProvince v s) as H. rewrite Hp in H. lia.
    + destruct v as [x|]; [|tauto]. intros [Hx Hin].
      exact (proj2 (count_removeFacet k (Some x) s) x eq_refl Hx Hin).
  - intros Hp. apply truthy_true_iff in Hp.
    pose proof (count_removeProvince v s) as H. rewrite Hp in H. lia.
Qed.

Lemma X8_chip_lowers_count_witness :
  let s := setSelectedProvince "Jawa Barat"
             (setSidebarFilters (withCities ["Bandung"; "Bogor"])
                (state (mount plainProps someRouter))) in
  getActiveFiltersCount s = 3%nat /\
  (getActiveFiltersCount (removeFilter (OfFacet Cities) (Some "Bogor") s) <
   getActiveFiltersCount s)%nat /\
  getActiveFiltersCount (removeFilter OfProvince None s) = 0%nat.
Proof.
  cbv zeta. split; [reflexivity|]. split; [|reflexivity].
  apply (proj1 (proj2 (X8_chip_lowers_count (OfFacet Cities) (Some "Bogor") _))).
  split; [discriminate | right; left; reflexivity].
Defined.

(** ** X9, X10: when the effect fetches *)

Lemma effect_quiet (s : State) :
  synced s -> currentFilters s = filtersRef s \/ filterData s = None ->
  filtersEffect s = (s, None).
Proof.
  intros Hsync [E | E].
  - now apply filtersEffect_unchanged.
  - unfold filtersEffect. rewrite E. simpl. now rewrite andb_false_r.
Qed.

(** X9: in a reachable state, a handler that writes the filters without
    changing any value (typing the same keyword, removing a value that is
    not selected, passing an equal sidebar object) fetches nothing: the
    world is the handler's state with the same pending requests. *)
Theorem X9_same_filters_no_search (w : World) (a : Action) :
  reachable w ->
  starterOf a = ViaEffect ->
  currentFilters (handlerOf a (state w)) = currentFilters (state w) ->
  perform a w = mkWorld (handlerOf a (state w)) (pending w).
Proof.
  intros Hr Ha Hsame. rewrite perform_decompose, Ha. simpl.
  pose proof (reachable_synced w Hr) as Hsync.
  destruct (handlerOf_frame a (state w)) as (_ & _ & F3 & F4 & _).
  rewrite effect_quiet; [reflexivity | |].
  - unfold synced. rewrite F3, F4, Hsame. exact Hsync.
  - destruct (filterData (handlerOf a (state w))) eqn:Ef; [left | now right].
    rewrite F4, Hsame. symmetry. apply Hsync. congruence.
Qed.

Lemma X9_same_filters_no_search_witness :
  let w := run [Do (ChangeSidebar (withCities ["Bogor"]));
                Settle 0 (Fulfilled (JobsResponse.mk [job2] 1 false 1))]
               (mount plainProps someRouter) in
  let w' := perform (ClickRemove (OfFacet Cities) (Some "Bandung")) w in
  reachable w /\ pending w' = [] /\ jobs (state w') = [job2].
Proof.
  cbv zeta.
  assert (Hr : reachable (run [Do (ChangeSidebar (withCities ["Bogor"]));
                               Settle 0 (Fulfilled (JobsResponse.mk [job2] 1 false 1))]
                              (mount plainProps someRouter)))
    by apply reachable_run, reachable_mount.
  split; [exact Hr|].
  rewrite (X9_same_filters_no_search _ (ClickRemove (OfFacet Cities) (Some "Bandung"))
             Hr eq_refl eq_refl).
  split; vm_compute; reflexivity.
Defined.

(** X10: "clear all" in a reachable state with filter data loaded and no
    search in flight.  If some filter or the sort order differed from the
    defaults, the page ends on [/lowongan-kerja/?] (the search overwrites
    the [/lowongan-kerja/] that [clearAllFilters] wrote), the list is
    emptied and the first page without filters is requested; if nothing
    differed, it ends on [/lowongan-kerja/] and fetches nothing. *)
Theorem X10_clear_all (w : World) :
  reachable w ->
  filterData (state w) <> None ->
  searching (state w) = false ->
  (currentFilters (state w) <> FiltersRef.mk "" "" noSidebarFilters "newest" ->
   Router.location (router (state (perform ClickClearAll w))) = "/lowongan-kerja/?" /\
   jobs (state (perform ClickClearAll w)) = [] /\
   getActiveFiltersCount (state (perform ClickClearAll w)) = 0%nat /\
   pending (perform ClickClearAll w) =
     (pending w ++
      [mkRequest BySearch (JobFilters.mk "" "" "newest" noSidebarFilters) 1 24])%list) /\
  (currentFilters (state w) = FiltersRef.mk "" "" noSidebarFilters "newest" ->
   Router.location (router (state (perform ClickClearAll w))) = "/lowongan-kerja/" /\
   jobs (state (perform ClickClearAll w)) = jobs (state w) /\
   pending (perform ClickClearAll w) = pending w).
Proof.
  intros Hr Hfd Hs. pose proof (reachable_synced w Hr Hfd) as Hsync.
  unfold perform. split.
  - intros Hne. unfold filtersEffect.
    assert (Hc : filtersChanged (currentFilters (clearAllFilters (state w)))
                   (filtersRef (clearAllFilters (state w))) = true).
    { apply filtersChanged_true. cbn [filtersRef clearAllFilters setRouter setSortBy
        setSidebarFilters setSelectedProvince setKeyword]. rewrite Hsync.
      intros E. apply Hne. now rewrite <- E. }
    rewrite Hc.
    cbn [filterData clearAllFilters setRouter setSortBy setSidebarFilters
         setSelectedProvince setKeyword].
    destruct (filterData (state w)); [|congruence]. cbn [isSome andb].
    unfold handleFilterSearch.
    cbn [searching setFiltersRef clearAllFilters setRouter setSortBy setSidebarFilters
         setSelectedProvince setKeyword]. rewrite Hs.
    now repeat split.
  - intros E. rewrite effect_quiet.
    + now repeat split.
    + unfold synced. intros _. cbn [filtersRef clearAllFilters setRouter setSortBy
        setSidebarFilters setSelectedProvince setKeyword]. now rewrite Hsync, E.
    + left. cbn [filtersRef clearAllFilters setRouter setSortBy
        setSidebarFilters setSelectedProvince setKeyword]. now rewrite Hsync, E.
Qed.

Lemma X10_clear_all_witness :
  let w := run [Do (ChangeSort "oldest");
                Settle 0 (Fulfilled (JobsResponse.mk [job2; job1] 1 false 2))]
               (mount plainProps someRouter) in
  reachable w /\ getActiveFiltersCount (state w) = 0%nat /\
  Router.location (router (state (perform ClickClearAll w))) = "/lowongan-kerja/?" /\
  jobs (state (perform ClickClearAll w)) = [].
Proof.
  cbv zeta.
  assert (Hr : reachable (run [Do (ChangeSort "oldest");
                               Settle 0 (Fulfilled (JobsResponse.mk [job2; job1] 1 false 2))]
                              (mount plainProps someRouter)))
    by apply reachable_run, reachable_mount.
  split; [exact Hr|]. split; [vm_compute; reflexivity|].
  assert (Hfd : filterData (state (run [Do (ChangeSort "oldest");
                               Settle 0 (Fulfilled (JobsResponse.mk [job2; job1] 1 false 2))]
                              (mount plainProps someRouter))) <> None)
    by (vm_compute; discriminate).
  assert (Hne : currentFilters (state (run [Do (ChangeSort "oldest");
                               Settle 0 (Fulfilled (JobsResponse.mk [job2; job1] 1 false 2))]
                              (mount plainProps someRouter)))
                <> FiltersRef.mk "" "" noSidebarFilters "newest")
    by (vm_compute; discriminate).
  assert (Hs : searching (state (run [Do (ChangeSort "oldest");
                               Settle 0 (Fulfilled (JobsResponse.mk [job2; job1] 1 false 2))]
                              (mount plainProps someRouter))) = false)
    by (vm_compute; reflexivity).
  destruct (proj1 (X10_clear_all _ Hr Hfd Hs) Hne) as (H1 & H2 & _).
  split; [exact H1 | exact H2].
Defined.

(** ** X11, X12: what pagination keeps *)

Lemma start_without_search_jobs (h : Starter) (s : State) (l : list Request) :
  countSearch (pending (issue l (start h s))) = countSearch l ->
  jobs (fst (start h s)) = jobs s.
Proof.
  assert (Hsearch : forall s0,
    countSearch (pending (issue l (handleFilterSearch s0))) = countSearch l ->
    fst (handleFilterSearch s0) = s0).
  { intros s0.
    destruct (handleFilterSearch_cases s0) as [[_ ->] | [_ (s' & -> & _)]];
      simpl; [reflexivity|].
    rewrite countSearch_app. simpl. lia. }
  destruct (start_shape h s) as [E | [[_ [E | E]] | [_ E]]]; rewrite E; intros H.
  - reflexivity.
  - now rewrite (Hsearch _ H).
  - now rewrite (Hsearch _ H).
  - now destruct (loadMoreJobs_touches s) as (_ & _ & _ & _ & ->).
Qed.

Lemma settle_loadMore_appends (q : Request) (o : Outcome) (s : State) :
  caller q = ByLoadMore -> exists extra, jobs (settle q o s) = (jobs s ++ extra)%list.
Proof.
  intros Hq. unfold settle, loadMoreFulfilled. rewrite Hq.
  destruct o as [r|]; simpl.
  - destruct (0 <? List.length (JobsResponse.jobs r))%nat; simpl.
    + now exists (JobsResponse.jobs r).
    + exists []. now rewrite app_nil_r.
  - exists []. now rewrite app_nil_r.
Qed.

(** X11: as long as no search is started or settled, the list of jobs
    only grows at its end: after any such run the list is the earlier list
    followed by what the [loadMore] responses brought; nothing is dropped
    or reordered. *)
Theorem X11_jobs_accumulate (w w' : World) :
  paginationRun w w' ->
  exists extra, jobs (state w') = (jobs (state w) ++ extra)%list.
Proof.
  induction 1 as [w | w w' w'' _ [extra IH] Hstep].
  - exists []. now rewrite app_nil_r.
  - destruct Hstep as [a w' Hc | w' before after q o Hp Hq].
    + exists extra. rewrite perform_decompose in *. rewrite state_issue.
      rewrite (start_without_search_jobs _ _ _ Hc).
      now destruct (handlerOf_frame a (state w')) as (_ & _ & _ & _ & -> & _).
    + destruct (settle_loadMore_appends q o (state w') Hq) as [more E].
      exists (extra ++ more)%list. simpl. now rewrite E, IH, app_assoc.
Qed.

Lemma X11_jobs_accumulate_witness :
  let w := mount plainProps someRouter in
  let w1 := perform ScrollNearEnd w in
  let w2 := mkWorld (settle (mkRequest ByLoadMore
                               (JobFilters.mk "" "" "newest" noSidebarFilters) 2 24)
                       (Fulfilled (JobsResponse.mk [job2] 2 true 30)) (state w1)) [] in
  paginationRun w w2 /\ jobs (state w) = [job1] /\ jobs (state w2) = [job1; job2] /\
  exists extra, jobs (state w2) = (jobs (state w) ++ extra)%list.
Proof.
  cbv zeta.
  assert (Hrun : paginationRun (mount plainProps someRouter)
            (mkWorld (settle (mkRequest ByLoadMore
                                (JobFilters.mk "" "" "newest" noSidebarFilters) 2 24)
                        (Fulfilled (JobsResponse.mk [job2] 2 true 30))
                        (state (perform ScrollNearEnd (mount plainProps someRouter)))) [])).
  { eapply paginationRun_step.
    - eapply paginationRun_step; [apply paginationRun_refl|].
      apply (paginationStep_perform ScrollNearEnd). reflexivity.
    - apply (paginationStep_settle _ [] []); reflexivity. }
  split; [exact Hrun|]. split; [reflexivity|]. split; [reflexivity|].
  exact (X11_jobs_accumulate _ _ Hrun).
Defined.

(** X12: [totalJobs] changes only when a search is fulfilled.  Whatever
    else happens (any action, a rejected search, a [loadMore] response,
    whose own [totalJobs] is ignored), the total shown stays. *)
Theorem X12_totalJobs_only_by_search (w w' : World) :
  step w w' ->
  totalJobs (state w') <> totalJobs (state w) ->
  exists (before after : list Request) (q : Request) (r : JobsResponse.t),
    pending w = (before ++ q :: after)%list /\ caller q = BySearch /\
    w' = mkWorld (searchFulfilled r (state w)) (before ++ after)%list /\
    totalJobs (state w') = JobsResponse.totalJobs r.
Proof.
  destruct 1 as [a w | w before after q o Hp]; intros Hne.
  - exfalso. apply Hne. rewrite perform_decompose, state_issue.
    destruct (handlerOf_touches a (state w)) as (_ & <- & _).
    destruct (start_shape (starterOf a) (handlerOf a (state w)))
      as [E | [[_ [E | E]] | [_ E]]]; rewrite E.
    + reflexivity.
    + apply handleFilterSearch_touches.
    + apply (handleFilterSearch_touches (setFiltersRef _ (handlerOf a (state w)))).
    + apply loadMoreJobs_touches.
  - simpl in Hne. unfold settle in *.
    destruct (caller q) eqn:Eq, o as [r|]; simpl in Hne.
    + exfalso. apply Hne. unfold loadMoreFulfilled.
      now destruct (0 <? List.length (JobsResponse.jobs r))%nat.
    + exfalso. now apply Hne.
    + exists before, after, q, r. now repeat split.
    + exfalso. now apply Hne.
Qed.

Lemma X12_totalJobs_only_by_search_witness :
  let w := perform ScrollNearEnd (mount plainProps someRouter) in
  let q := mkRequest ByLoadMore (JobFilters.mk "" "" "newest" noSidebarFilters) 2 24 in
  let w' := mkWorld (settle q (Fulfilled (JobsResponse.mk [job2] 2 true 30)) (state w)) [] in
  step w w' /\ totalJobs (state w') = 1%Z.
Proof.
  cbv zeta.
  assert (Hstep : step (perform ScrollNearEnd (mount plainProps someRouter))
            (mkWorld (settle (mkRequest ByLoadMore
                                (JobFilters.mk "" "" "newest" noSidebarFilters) 2 24)
                        (Fulfilled (JobsResponse.mk [job2] 2 true 30))
                        (state (perform ScrollNearEnd (mount plainProps someRouter)))) []))
    by (apply (step_settle _ [] []); reflexivity).
  split; [exact Hstep|].
  destruct (Z.eq_dec
    (totalJobs (state (mkWorld (settle (mkRequest ByLoadMore
                                (JobFilters.mk "" "" "newest" noSidebarFilters) 2 24)
                        (Fulfilled (JobsResponse.mk [job2] 2 true 30))
                        (state (perform ScrollNearEnd (mount plainProps someRouter)))) [])))
    (totalJobs (state (perform ScrollNearEnd (mount plainProps someRouter)))))
    as [E | Hne]; [exact E|].
  destruct (X12_totalJobs_only_by_search _ _ Hstep Hne)
    as (before & after & q & r & Hp & Hq & _).
  exfalso. destruct before as [|q0 [|q1 before]]; simpl in Hp; try discriminate Hp.
  injection Hp as <- _. discriminate Hq.
Defined.

(** ** X13, X14: the query string *)

Lemma allChars_app (p : ascii -> bool) (a b : string) :
  allChars p (a ++ b) = allChars p a && allChars p b.
Proof.
  induction a as [|c a IH]; simpl; [reflexivity|].
  now rewrite IH, andb_assoc.
Qed.

Lemma allChars_weaken (p q : ascii -> bool) (s : string) :
  (forall c, p c = true -> q c = true) ->
  allChars p s = true -> allChars q s = true.
Proof.
  intros Hpq. induction s as [|c s IH]; simpl; [reflexivity|].
  rewrite !andb_true_iff. intros [Hc Hs]. split; [now apply Hpq | now apply IH].
Qed.

Lemma encode_char_formSafe (c : ascii) :
  allChars formSafe (URLSearchParams.encodeBytes (URLSearchParams.utf8 c)) = true.
Proof.
  destruct c as [b0 b1 b2 b3 b4 b5 b6 b7].
  destruct b0, b1, b2, b3, b4, b5, b6, b7; vm_compute; reflexivity.
Qed.

Lemma formSafe_not_delimiter (c : ascii) :
  formSafe c = true -> negb (delimiter c) = true.
Proof.
  destruct c as [b0 b1 b2 b3 b4 b5 b6 b7].
  destruct b0, b1, b2, b3, b4, b5, b6, b7; vm_compute; congruence.
Qed.

(** X13: whatever the keyword or province, its form encoding consists of
    unreserved characters, [+] and [%] escapes only; in particular it
    contains no [&], [=], [#], [?], [/] and no space, so a value cannot
    break out of its parameter. *)
Theorem X13_encode_alphabet (s : string) :
  allChars formSafe (URLSearchParams.encode s) = true /\
  allChars (fun c => negb (delimiter c)) (URLSearchParams.encode s) = true.
Proof.
  assert (H : allChars formSafe (URLSearchParams.encode s) = true).
  { induction s as [|c s IH]; simpl; [reflexivity|].
    now rewrite allChars_app, encode_char_formSafe, IH. }
  split; [exact H|].
  revert H. apply allChars_weaken. exact formSafe_not_delimiter.
Qed.



























(** ** X15, X16: leaving the home page *)

(** X15: the search of the home page pushes a new history entry whose
    URL is exactly the one the job-search page writes for the same keyword
    and province (empty ones left out), and keeps the entry it left. *)
Theorem X15_home_search_url (h : HomePage.State) (s : State) :
  keyword s = HomePage.searchKeyword h ->
  selectedProvince s = HomePage.selectedLocation h ->
  Router.location (HomePage.router (HomePage.handleSearch h)) = searchUrl s /\
  Router.earlier (HomePage.router (HomePage.handleSearch h)) =
    Router.location (HomePage.router h) :: Router.earlier (HomePage.router h) /\
  Router.shallow (HomePage.router (HomePage.handleSearch h)) = false.
Proof.
  intros Hk Hp. unfold HomePage.handleSearch, HomePage.searchParamsOf, searchUrl,
    searchParamsOf. rewrite Hk, Hp. now repeat split.
Qed.

Lemma X15_home_search_url_witness :
  let h := HomePage.mk "backend developer" "" (Router.mk "/" [] false) in
  Router.location (HomePage.router (HomePage.handleSearch h)) =
    "/lowongan-kerja/?search=backend+developer" /\
  Router.earlier (HomePage.router (HomePage.handleSearch h)) = ["/"].
Proof.
  cbv zeta.
  destruct (X15_home_search_url
              (HomePage.mk "backend developer" "" (Router.mk "/" [] false))
              (setKeyword "backend developer" (state (mount plainProps someRouter)))
              eq_refl eq_refl) as (H1 & H2 & _).
  split; [exact H1 | exact H2].
Defined.

Lemma component_char_safe (c : ascii) :
  allChars URI.componentSafe (URI.encodeBytes (URLSearchParams.utf8 c)) = true.
Proof.
  destruct c as [b0 b1 b2 b3 b4 b5 b6 b7].
  destruct b0, b1, b2, b3, b4, b5, b6, b7; vm_compute; reflexivity.
Qed.

Lemma componentSafe_not_delimiter (c : ascii) :
  URI.componentSafe c = true -> negb (delimiter c || (c =? "+")%char) = true.
Proof.
  destruct c as [b0 b1 b2 b3 b4 b5 b6 b7].
  destruct b0, b1, b2, b3, b4, b5, b6, b7; vm_compute; congruence.
Qed.

(** X16: a click on a category of the home page pushes
    [/lowongan-kerja/?category=] followed by the category encoded with
    [encodeURIComponent]; the encoded category contains no [&], [=], [#],
    [?], [/], [+] and no space, so the URL carries this one parameter
    whatever the category name is. *)
Theorem X16_home_category_url (category : string) (h : HomePage.State) :
  Router.location (HomePage.router (HomePage.handleCategoryClick category h)) =
    "/lowongan-kerja/?category=" ++ URI.encodeURIComponent category /\
  allChars (fun c => negb (delimiter c || (c =? "+")%char))
    (URI.encodeURIComponent category) = true /\
  Router.earlier (HomePage.router (HomePage.handleCategoryClick category h)) =
    Router.location (HomePage.router h) :: Router.earlier (HomePage.router h).
Proof.
  split; [reflexivity|]. split; [|reflexivity].
  apply (allChars_weaken URI.componentSafe); [exact componentSafe_not_delimiter|].
  induction category as [|c s IH]; simpl; [reflexivity|].
  now rewrite allChars_app, component_char_safe, IH.
Qed.

(** ** X17, X18: from the server-side props to the mounted page *)

(** X17: when the server-side fetch fails (either call rejects), the page
    is mounted with no jobs, no filter data and empty filters, whatever
    the query said; mounting fetches nothing, and afterwards no change of
    the filters ever fetches: only the search button and the scroll
    trigger still call the service. *)
Theorem X17_server_failure
  (getJobs : JobsRoute.ServerFilters -> Z -> Z -> option JobsResponse.t)
  (getFiltersData : option (option FilterData))
  (query : JobsRoute.Query) (r : Router.t) :
  getJobs (JobsRoute.serverFilters query) 1%Z 24%Z = None \/ getFiltersData = None ->
  let props := JobsRoute.getServerSideProps getJobs getFiltersData query in
  pending (mount props r) = [] /\
  jobs (state (mount props r)) = [] /\
  currentFilters (state (mount props r)) =
    FiltersRef.mk "" "" noSidebarFilters "newest" /\
  forall (w : World) (a : Action),
    steps (mount props r) w -> starterOf a = ViaEffect ->
    pending (perform a w) = pending w.
Proof.
  intros Hfail. cbv zeta.
  assert (E : JobsRoute.getServerSideProps getJobs getFiltersData query =
              mkProps [] None (mkSearchParams None None None) 0).
  { unfold JobsRoute.getServerSideProps.
    destruct Hfail as [-> | ->]; [reflexivity|].
    now destruct (getJobs _ _ _). }
  rewrite E. repeat split.
  intros w a Hsteps Ha. rewrite perform_decompose, Ha. simpl. unfold filtersEffect.
  destruct (handlerOf_frame a (state w)) as (_ & _ & -> & _).
  rewrite (steps_filterData _ _ _ Hsteps). simpl. now rewrite andb_false_r.
Qed.

Lemma X17_server_failure_witness :
  let query := JobsRoute.mkQuery (Some "kasir") None None in
  let props := JobsRoute.getServerSideProps (fun _ _ _ => None) (Some (Some someFilterData))
                 query in
  keyword (state (mount props someRouter)) = "" /\
  pending (mount props someRouter) = [] /\
  pending (perform (TypeKeyword "kasir") (mount props someRouter)) = [].
Proof.
  cbv zeta. split; [reflexivity|].
  destruct (X17_server_failure (fun _ _ _ => None) (Some (Some someFilterData))
              (JobsRoute.mkQuery (Some "kasir") None None) someRouter
              (or_introl eq_refl)) as (H1 & _ & _ & H4).
  split; [exact H1|].
  rewrite (H4 _ (TypeKeyword "kasir") (steps_refl _) eq_refl). exact H1.
Defined.

(** X18: when the server-side fetch succeeds with filter data, the page
    starts from the first page the server fetched.  If the query has a
    search or a location, mounting drops those jobs and asks again for
    page 1 of 24 with the very filters of the server-side call (search,
    location, the category as only facet, newest first); with neither, the
    server's jobs stay and nothing is fetched. *)
Theorem X18_server_success
  (getJobs : JobsRoute.ServerFilters -> Z -> Z -> option JobsResponse.t)
  (getFiltersData : option (option FilterData))
  (query : JobsRoute.Query) (r : Router.t)
  (response : JobsResponse.t) (data : FilterData) :
  getJobs (JobsRoute.serverFilters query) 1%Z 24%Z = Some response ->
  getFiltersData = Some (Some data) ->
  let props := JobsRoute.getServerSideProps getJobs getFiltersData query in
  let sf := JobsRoute.serverFilters query in
  (JobsRoute.f_search sf <> "" \/ JobsRoute.f_location sf <> "" ->
   pending (mount props r) =
     [mkRequest BySearch
        (JobFilters.mk (JobsRoute.f_search sf) (JobsRoute.f_location sf)
           (JobsRoute.f_sortBy sf)
           (setFacet Categories (JobsRoute.f_categories sf) noSidebarFilters))
        1 24] /\
   jobs (state (mount props r)) = []) /\
  (JobsRoute.f_search sf = "" /\ JobsRoute.f_location sf = "" ->
   pending (mount props r) = [] /\
   jobs (state (mount props r)) = JobsResponse.jobs response /\
   totalJobs (state (mount props r)) = JobsResponse.totalJobs response /\
   categories (sidebarFilters (state (mount props r))) = JobsRoute.f_categories sf).
Proof.
  intros Hj Hf. cbv zeta.
  unfold JobsRoute.getServerSideProps. rewrite Hj, Hf.
  set (props := mkProps _ _ _ _).
  unfold mount, filtersEffect. split.
  - intros Hne.
    destruct (filtersChanged _ _) eqn:Ec.
    + simpl. now split.
    + exfalso. apply initial_filters_changed in Ec as [E1 E2].
      simpl in E1, E2, Hne. destruct Hne; congruence.
  - intros Hk.
    assert (Ec : filtersChanged (currentFilters (initialState props r))
                   (filtersRef (initialState props r)) = false).
    { apply initial_filters_changed. exact Hk. }
    rewrite Ec. simpl. now repeat split.
Qed.

Lemma X18_server_success_witness :
  let getJobs := fun (_ : JobsRoute.ServerFilters) (_ _ : Z) =>
                   Some (JobsResponse.mk [job1; job2] 1 true 40) in
  let query := JobsRoute.mkQuery (Some "kasir") None (Some "Pendidikan") in
  let props := JobsRoute.getServerSideProps getJobs (Some (Some someFilterData)) query in
  initialJobs props = [job1; job2] /\
  pending (mount props someRouter) =
    [mkRequest BySearch
       (JobFilters.mk "kasir" "" "newest" (setFacet Categories ["Pendidikan"] noSidebarFilters))
       1 24] /\
  jobs (state (mount props someRouter)) = [].
Proof.
  cbv zeta. split; [reflexivity|].
  refine (proj1 (X18_server_success
                   (fun _ _ _ => Some (JobsResponse.mk [job1; job2] 1 true 40))
                   (Some (Some someFilterData))
                   (JobsRoute.mkQuery (Some "kasir") None (Some "Pendidikan"))
                   someRouter (JobsResponse.mk [job1; job2] 1 true 40) someFilterData
                   eq_refl eq_refl) _).
  left. discriminate.
Defined.

(** ** X19, X20: the tags of a job *)

Import JobDetailPage.

Lemma trimStart_first (s : string) :
  trimStart s = "" \/ edgeIsBlack (firstChar (trimStart s)) = true.
Proof.
  induction s as [|c s IH]; simpl; [now left|].
  destruct (isWhiteSpace c) eqn:E; [exact IH|]. right. simpl. now rewrite E.
Qed.

Lemma trimEnd_first (s : string) :
  trimEnd s = "" \/ firstChar (trimEnd s) = firstChar s.
Proof.
  destruct s as [|c s]; simpl; [now left|].
  destruct (trimEnd s); [|now right].
  destruct (isWhiteSpace c); [now left | now right].
Qed.

Lemma trimEnd_last (s : string) :
  trimEnd s = "" \/ edgeIsBlack (lastChar (trimEnd s)) = true.
Proof.
  induction s as [|c s IH]; simpl; [now left|].
  destruct (trimEnd s) as [|d t] eqn:E.
  - destruct (isWhiteSpace c) eqn:Ec; [now left|]. right. simpl. now rewrite Ec.
  - right. destruct IH as [IH | IH]; [discriminate IH|].
    change (lastChar (String c (String d t))) with
      (match lastChar (String d t) with None => Some c | Some x => Some x end).
    destruct (lastChar (String d t)); [exact IH | discriminate IH].
Qed.

Lemma trim_tidy_or_empty (s : string) : trim s = "" \/ tidy (trim s) = true.
Proof.
  unfold trim, tidy.
  destruct (trimEnd_last (trimStart s)) as [E | El]; [now left|]. right.
  rewrite El, andb_true_r.
  destruct (trimEnd_first (trimStart s)) as [E | Ef].
  - rewrite E in El. discriminate El.
  - rewrite Ef. destruct (trimStart_first s) as [E | E]; [|exact E].
    rewrite E in El. discriminate El.
Qed.

(** X19: every tag that [getJobTags] returns is non-empty and has no
    white space at its start or at its end; the empty tag string gives no
    tags. *)
Theorem X19_tags_are_tidy (tagString tag : string) :
  In tag (getJobTags tagString) ->
  tag <> "" /\ tidy tag = true /\ tagString <> "".
Proof.
  unfold getJobTags. destruct (Str.truthy tagString) eqn:Et; simpl; [|tauto].
  intros Hin. apply filter_In in Hin as [Hin Hlen].
  apply in_map_iff in Hin as (piece & <- & _).
  assert (Hne : trim piece <> "").
  { intros E. rewrite E in Hlen. discriminate Hlen. }
  split; [exact Hne|]. split; [|now apply truthy_true_iff].
  destruct (trim_tidy_or_empty piece); [contradiction | assumption].
Qed.

Lemma X19_tags_are_tidy_witness :
  getJobTags "  SQL , Excel,  , Kasir  " = ["SQL"; "Excel"; "Kasir"] /\
  getJobTags "SQL,Excel" = ["SQL,Excel"] /\
  tidy "Kasir" = true.
Proof.
  split; [vm_compute; reflexivity|]. split; [vm_compute; reflexivity|].
  refine (proj1 (proj2 (X19_tags_are_tidy "  SQL , Excel,  , Kasir  " "Kasir" _))).
  vm_compute. right. right. left. reflexivity.
Defined.

Lemma split_step (c : ascii) (rest : string) :
  splitCommaSpace (String c rest) =
  if separatorAt c rest
  then "" :: splitCommaSpace (match rest with String _ r' => r' | EmptyString => "" end)
  else match splitCommaSpace rest with
       | piece :: more => String c piece :: more
       | [] => [String c ""]
       end.
Proof.
  destruct rest as [|c2 rest']; simpl; [reflexivity|].
  now destruct ((c =? ",")%char && (c2 =? " ")%char).
Qed.

Lemma unsplittable_step (c : ascii) (rest : string) :
  unsplittable (String c rest) = true ->
  separatorAt c rest = false /\ unsplittable rest = true.
Proof.
  destruct rest as [|c2 rest']; simpl; [now split|].
  destruct ((c =? ",")%char && (c2 =? " ")%char); [discriminate | now split].
Qed.

Lemma separatorAt_app (c : ascii) (t x : string) :
  separatorAt c t = false -> separatorAt c (t ++ ", " ++ x) = false.
Proof.
  destruct t as [|c2 t']; simpl; [|trivial].
  intros _. apply andb_false_r.
Qed.

Lemma split_unsplittable (t : string) :
  unsplittable t = true -> splitCommaSpace t = [t].
Proof.
  induction t as [|c t IH]; [reflexivity|].
  intros H. apply unsplittable_step in H as [Hc Hu].
  now rewrite split_step, Hc, (IH Hu).
Qed.

Lemma split_separator (t rest : string) :
  unsplittable t = true ->
  splitCommaSpace (t ++ ", " ++ rest) = t :: splitCommaSpace rest.
Proof.
  induction t as [|c t IH]; [reflexivity|].
  intros H. apply unsplittable_step in H as [Hc Hu].
  change (String c t ++ ", " ++ rest) with (String c (t ++ ", " ++ rest)).
  now rewrite split_step, (separatorAt_app _ _ _ Hc), (IH Hu).
Qed.

Lemma trimEnd_tidy (t : string) :
  edgeIsBlack (lastChar t) = true -> trimEnd t = t.
Proof.
  induction t as [|c t IH]; [reflexivity|].
  simpl. destruct (lastChar t) as [d|] eqn:El.
  - intros H. rewrite (IH H). destruct t; [discriminate El | reflexivity].
  - destruct t as [|c2 t']; [|simpl in El; destruct (lastChar t'); discriminate El].
    simpl. intros H. apply negb_true_iff in H. now rewrite H.
Qed.

Lemma trim_tidy (t : string) : tidy t = true -> trim t = t.
Proof.
  unfold tidy, trim. rewrite andb_true_iff. intros [Hf Hl].
  assert (E : trimStart t = t).
  { destruct t as [|c t]; [reflexivity|]. simpl in *.
    apply negb_true_iff in Hf. now rewrite Hf. }
  rewrite E. now apply trimEnd_tidy.
Qed.

Lemma tidy_nonempty (t : string) : tidy t = true -> t <> "".
Proof. destruct t; [discriminate | discriminate]. Qed.

Lemma split_concat (tags : list string) :
  tags <> [] ->
  Forall (fun t => unsplittable t = true) tags ->
  splitCommaSpace (String.concat ", " tags) = tags.
Proof.
  induction tags as [|t tags IH]; [congruence|]. intros _ Hall.
  inversion Hall as [|? ? Ht Hrest]; subst.
  destruct tags as [|t2 tags].
  - simpl. now apply split_unsplittable.
  - change (String.concat ", " (t :: t2 :: tags))
      with (t ++ ", " ++ String.concat ", " (t2 :: tags)).
    rewrite (split_separator _ _ Ht), IH; [reflexivity | discriminate | exact Hrest].
Qed.

Lemma tidy_tags_kept (l : list string) :
  Forall (fun t => tidy t = true) l ->
  filter (fun tag => (0 <? String.length tag)%nat) (map trim l) = l.
Proof.
  induction 1 as [|x l Hx _ IH]; [reflexivity|].
  simpl. rewrite (trim_tidy x Hx).
  destruct x as [|c x]; [discriminate Hx|]. simpl. now rewrite IH.
Qed.

(** X20: a tag string written as tags joined by [", "] is read back as
    exactly those tags, provided each tag is non-empty, has no white space
    at its ends and does not itself contain [", "]. *)
Theorem X20_tags_round_trip (tags : list string) :
  Forall (fun t => tidy t = true /\ unsplittable t = true) tags ->
  getJobTags (String.concat ", " tags) = tags.
Proof.
  intros Hall. destruct tags as [|t tags]; [reflexivity|].
  assert (Ht : Str.truthy (String.concat ", " (t :: tags)) = true).
  { inversion Hall as [|? ? [Htidy _] _]; subst.
    apply tidy_nonempty in Htidy. destruct t as [|c t]; [congruence|].
    now destruct tags. }
  unfold getJobTags. rewrite Ht. simpl negb. cbv iota.
  rewrite split_concat; [|discriminate|].
  - apply tidy_tags_kept. eapply Forall_impl; [|exact Hall]. now intros x [Hx _].
  - eapply Forall_impl; [|exact Hall]. now intros x [_ Hx].
Qed.

Lemma X20_tags_round_trip_witness :
  String.concat ", " ["Microsoft Excel"; "SQL,NoSQL"; "Kasir"] =
    "Microsoft Excel, SQL,NoSQL, Kasir" /\
  getJobTags "Microsoft Excel, SQL,NoSQL, Kasir" =
    ["Microsoft Excel"; "SQL,NoSQL"; "Kasir"].
Proof.
  split; [reflexivity|].
  apply (X20_tags_round_trip ["Microsoft Excel"; "SQL,NoSQL"; "Kasir"]).
  repeat constructor.
Defined.
